(** * ZMK battery voltage divider sensor driver

    A shallow embedding of
    [app/drivers/sensor/battery_voltage_divider/battery_voltage_divider.c]:
    the discharge-curve lookup table, the voltage-to-percent estimator
    [lithium_ion_mv_to_pct], the sampling cycle [bvd_sample_fetch], the
    channel reader [bvd_channel_get] and the initialisation [bvd_init].

    - C integers are [Z]; every conversion to a fixed-width type is written
      out ([to_uint16], [to_int16], [to_uint64]).
    - C [double] is IEEE 754 binary64, given by the executable reference
      semantics of [SpecFloat] (53 bits of precision, round to nearest even,
      each operation rounded once, no contraction of [a + b * c]).
    - Undefined behaviour (array access out of bounds, integer division by
      zero, a double-to-integer conversion whose value does not fit) is the
      [None] of [option]. *)

From Stdlib Require Import ZArith QArith Qround List Bool Lia.
From Stdlib Require String.
From Stdlib Require Import Floats.SpecFloat.
Import ListNotations.
Open Scope Z_scope.

(** ** Undefined behaviour as an error monad *)

Definition ub (A : Type) : Type := option A.

Definition ub_bind {A B : Type} (m : ub A) (k : A -> ub B) : ub B :=
  match m with
  | Some a => k a
  | None => None
  end.

Notation "x <- m ;; k" := (ub_bind m (fun x => k))
  (at level 61, m at next level, right associativity).

(** ** Fixed-width integer conversions *)

Module CInt.

Definition to_uint16 (z : Z) : Z := z mod 2 ^ 16.
Definition to_uint64 (z : Z) : Z := z mod 2 ^ 64.

(** Conversion of an out-of-range value to a signed type is
    implementation-defined; GCC and Clang reduce modulo [2^16]. *)
Definition to_int16 (z : Z) : Z := (z + 2 ^ 15) mod 2 ^ 16 - 2 ^ 15.

End CInt.

(** ** IEEE 754 binary64 *)

Module Double.

Definition prec : Z := 53.
Definition emax : Z := 1024.

Definition double : Type := spec_float.

(** Conversion of an [int] to [double]; exact below [2^53]. *)
Definition of_int (z : Z) : double := binary_normalize prec emax z 0 false.

Definition add : double -> double -> double := SFadd prec emax.
Definition mul : double -> double -> double := SFmul prec emax.
Definition div : double -> double -> double := SFdiv prec emax.

(** The integral part of a finite double (fraction discarded, toward
    zero); [None] for an infinity or a NaN. *)
Definition trunc (x : double) : option Z :=
  match x with
  | S754_zero _ => Some 0
  | S754_finite s m e =>
      let a := match e with
               | Zneg p => Z.shiftr (Zpos m) (Zpos p)
               | _ => Z.shiftl (Zpos m) e
               end in
      Some (if s then - a else a)
  | S754_infinity _ | S754_nan => None
  end.

(** [(uint8_t) x]: undefined unless the integral part fits. *)
Definition to_uint8 (x : double) : ub Z :=
  z <- trunc x ;;
  if (0 <=? z) && (z <=? 255) then Some z else None.

End Double.

(** ** The discharge curve *)

Record charge_level : Type := Build_charge_level { mv : Z; pct : Z }.

Definition BATTERY_CHARGE_LEVEL_LUT_COUNT : Z := 27.

Definition charge_level_lut : list charge_level :=
  map (fun p => Build_charge_level (fst p) (snd p))
    [ (3434, 0);  (3457, 4);  (3487, 8);  (3520, 12); (3545, 15); (3577, 19); (3595, 23);
      (3609, 27); (3618, 31); (3625, 35); (3633, 38); (3643, 42); (3656, 46); (3672, 50);
      (3696, 54); (3733, 58); (3767, 62); (3796, 65); (3825, 69); (3862, 73); (3899, 77);
      (3936, 81); (3976, 85); (4023, 88); (4068, 92); (4120, 96); (4177, 100) ].

(** ** The estimator, over an arbitrary content of the table *)

Section Estimator.

(** The content of the array [charge_level_lut]. *)
Variable lut : list charge_level.

(** [lut[i]]; an index outside the array is undefined behaviour. *)
Definition lut_at (i : Z) : ub charge_level :=
  if i <? 0 then None else nth_error lut (Z.to_nat i).

(** The loop condition on one pair, [lo.mv <= bat_mv && bat_mv <= hi.mv]. *)
Definition in_bracket (lo hi : charge_level) (bat_mv : Z) : bool :=
  (mv lo <=? bat_mv) && (bat_mv <=? mv hi).

(** The body of the branch taken inside the loop, up to the conversion of
    the result to [uint8_t]:
    [distLower], [distAdjacent], [slope], then [lo.pct + slope * distLower]. *)
Definition interpolate (lo hi : charge_level) (bat_mv : Z) : Double.double :=
  let distLower := Double.of_int (bat_mv - mv lo) in
  let distAdjacent := Double.of_int (mv hi - mv lo) in
  let slope := Double.div (Double.of_int (pct hi - pct lo)) distAdjacent in
  Double.add (Double.of_int (pct lo)) (Double.mul slope distLower).

(** The [for] loop from [lut_idx], with [fuel] iterations left before
    [lut_idx] reaches [BATTERY_CHARGE_LEVEL_LUT_COUNT - 1]; the result is
    [charge_state] at the loop's exit (still 0 when no pair matched). *)
Fixpoint lut_scan (fuel : nat) (lut_idx : Z) (bat_mv : Z) : ub Z :=
  match fuel with
  | O => Some 0
  | S fuel' =>
      lo <- lut_at lut_idx ;;
      if mv lo <=? bat_mv then
        hi <- lut_at (lut_idx + 1) ;;
        if bat_mv <=? mv hi then
          Double.to_uint8 (interpolate lo hi bat_mv)
        else lut_scan fuel' (lut_idx + 1) bat_mv
      else lut_scan fuel' (lut_idx + 1) bat_mv
  end.

Definition lithium_ion_mv_to_pct_on (bat_mv : Z) : ub Z :=
  top <- lut_at (BATTERY_CHARGE_LEVEL_LUT_COUNT - 1) ;;
  if bat_mv >=? mv top then Some 100
  else lut_scan (Z.to_nat (BATTERY_CHARGE_LEVEL_LUT_COUNT - 1)) 0 bat_mv.

End Estimator.

(** The estimator of the driver: the scan over the table as compiled in.
    Its parameter is an [int16_t]; the caller converts its argument
    ([CInt.to_int16] in [store_sample]). Every property below is proved for
    all integers, hence for every [int16_t]. *)
Definition lithium_ion_mv_to_pct (bat_mv : Z) : ub Z :=
  lithium_ion_mv_to_pct_on charge_level_lut bat_mv.

(** ** The algorithm as the specification words it

    Saturate at or above the last breakpoint; otherwise take the first
    adjacent pair that brackets the input and interpolate with exact
    rational arithmetic, truncating; 0 when no pair brackets the input. *)

Definition spec_pairs (lut : list charge_level) : list (charge_level * charge_level) :=
  combine lut (tl lut).

Definition spec_first_bracket (lut : list charge_level) (voltage_mv : Z)
  : option (charge_level * charge_level) :=
  find (fun p => in_bracket (fst p) (snd p) voltage_mv) (spec_pairs lut).

Definition spec_interpolate (lo hi : charge_level) (voltage_mv : Z) : Q :=
  (inject_Z (pct lo)
   + inject_Z (pct hi - pct lo) * inject_Z (voltage_mv - mv lo)
     / inject_Z (mv hi - mv lo))%Q.

(** Truncation of a rational toward zero. *)
Definition Qtruncate (x : Q) : Z := Z.quot (Qnum x) (Zpos (Qden x)).

Definition spec_estimate (voltage_mv : Z) : Z :=
  if last (map mv charge_level_lut) 0 <=? voltage_mv then 100
  else match spec_first_bracket charge_level_lut voltage_mv with
       | Some (lo, hi) => Qtruncate (spec_interpolate lo hi voltage_mv)
       | None => 0
       end.

(** ** Exhaustive checks over the interpolated range

    Between the first and the last breakpoint the estimator is a finite
    table of 743 values; the checks below are evaluated, not assumed. *)

Definition lut_inputs : list Z := map (fun n => 3434 + Z.of_nat n) (seq 0 743).

(** The estimate at [v] and at [v + 1] are defined, ordered and within
    [0, 100]. *)
Definition step_ok (v : Z) : bool :=
  match lithium_ion_mv_to_pct v, lithium_ion_mv_to_pct (v + 1) with
  | Some a, Some b => (0 <=? a) && (a <=? b) && (b <=? 100)
  | _, _ => false
  end.

Definition agrees_with_spec (v : Z) : bool :=
  match lithium_ion_mv_to_pct v with
  | Some p => p =? spec_estimate v
  | None => false
  end.

Definition hits_breakpoint (c : charge_level) : bool :=
  match lithium_ion_mv_to_pct (mv c) with
  | Some p => p =? pct c
  | None => false
  end.

(** ** Tables with a pair of width zero

    The compiled-in table in which the breakpoints at indices [i] and
    [i + 1] are both given the voltage [s]; every percent and every other
    voltage is as compiled in. *)







(** ** The sampling cycle *)

(** [enum sensor_channel], as far as the driver distinguishes its members. *)
Inductive sensor_channel : Type :=
  | SENSOR_CHAN_GAUGE_VOLTAGE
  | SENSOR_CHAN_GAUGE_STATE_OF_CHARGE
  | SENSOR_CHAN_ALL
  | SENSOR_CHAN_OTHER (id : Z).

(** [struct bvd_config]; [output_ohm] and [full_ohm] are [uint32_t]. *)
Record bvd_config : Type := Build_bvd_config {
  power_gpios_pin : Z;
  output_ohm : Z;
  full_ohm : Z
}.

(** [struct bvd_data]: [gpio] tells whether the power-gate device pointer is
    non-null, [as_calibrate] is [as.calibrate]. *)
Record bvd_data : Type := Build_bvd_data {
  gpio : bool;
  as_calibrate : bool;
  adc_raw : Z;
  voltage : Z;
  state_of_charge : Z
}.

Definition set_as_calibrate (b : bool) (d : bvd_data) : bvd_data :=
  Build_bvd_data (gpio d) b (adc_raw d) (voltage d) (state_of_charge d).
Definition set_adc_raw (z : Z) (d : bvd_data) : bvd_data :=
  Build_bvd_data (gpio d) (as_calibrate d) z (voltage d) (state_of_charge d).
Definition set_voltage (z : Z) (d : bvd_data) : bvd_data :=
  Build_bvd_data (gpio d) (as_calibrate d) (adc_raw d) z (state_of_charge d).
Definition set_state_of_charge (z : Z) (d : bvd_data) : bvd_data :=
  Build_bvd_data (gpio d) (as_calibrate d) (adc_raw d) (voltage d) z.

(** What the driver asks of the two devices, in order. *)
Inductive event : Type :=
  | GpioPinSet (pin value : Z)
  | AdcRead.

(** The devices' answers during one cycle: the return code of
    [gpio_pin_set] for a pin and a value, the return code of [adc_read] and
    what it leaves in the sample buffer, given what the buffer held. *)
Record hardware : Type := Build_hardware {
  gpio_pin_set_rc : Z -> Z -> Z;
  adc_read_rc : Z;
  adc_read_sample : Z -> Z
}.

Record world : Type := Build_world {
  drv_data : bvd_data;
  trace : list event
}.

(** State, a log of device commands, and undefined behaviour. *)
Definition drv (A : Type) : Type := world -> ub (A * world).

Definition drv_ret {A : Type} (a : A) : drv A := fun w => Some (a, w).

Definition drv_bind {A B : Type} (m : drv A) (k : A -> drv B) : drv B :=
  fun w => match m w with
           | Some (a, w') => k a w'
           | None => None
           end.

Notation "x <~ m ;; k" := (drv_bind m (fun x => k))
  (at level 61, m at next level, right associativity).

Definition drv_get : drv bvd_data := fun w => Some (drv_data w, w).

Definition drv_modify (f : bvd_data -> bvd_data) : drv unit :=
  fun w => Some (tt, Build_world (f (drv_data w)) (trace w)).

Definition drv_lift {A : Type} (m : ub A) : drv A :=
  fun w => match m with
           | Some a => Some (a, w)
           | None => None
           end.

Definition gpio_pin_set (hw : hardware) (pin value : Z) : drv Z :=
  fun w => Some (gpio_pin_set_rc hw pin value,
                 Build_world (drv_data w) (trace w ++ [GpioPinSet pin value])).

(** [adc_read] fills the [uint16_t] buffer [adc_raw]. *)
Definition adc_read (hw : hardware) : drv Z :=
  fun w =>
    let d := drv_data w in
    Some (adc_read_rc hw,
          Build_world (set_adc_raw (CInt.to_uint16 (adc_read_sample hw (adc_raw d))) d)
                      (trace w ++ [AdcRead])).

Section Driver.

(** The errno constant of the C library. *)
Variable ENOTSUP : Z.

(** Zephyr's [adc_raw_to_millivolts] at the reference voltage, gain and
    resolution of the device: the [int32_t] it leaves in [*valp]. *)
Variable adc_raw_to_millivolts : Z -> Z.

Variable hw : hardware.
Variable drv_cfg : bvd_config.

Definition chan_supported (chan : sensor_channel) : bool :=
  match chan with
  | SENSOR_CHAN_OTHER _ => false
  | _ => true
  end.

(** [val * (uint64_t)full_ohm / output_ohm]: [val] is converted to
    [uint64_t], the product wraps at [2^64], a zero divisor is undefined. *)
Definition scale_up (val : Z) : ub Z :=
  if output_ohm drv_cfg =? 0 then None
  else Some (CInt.to_uint64 (CInt.to_uint64 val * full_ohm drv_cfg) / output_ohm drv_cfg).

(** The branch [rc == 0] after the read. *)
Definition store_sample : drv unit :=
  d <~ drv_get ;;
  let val := adc_raw d in
  let val := adc_raw_to_millivolts val in
  scaled <~ drv_lift (scale_up val) ;;
  let millivolts := CInt.to_uint16 scaled in
  percent <~ drv_lift (lithium_ion_mv_to_pct (CInt.to_int16 millivolts)) ;;
  _ <~ drv_modify (set_voltage millivolts) ;;
  drv_modify (set_state_of_charge percent).

(** From [// Read ADC] to the end of the function. *)
Definition read_and_release : drv Z :=
  rc <~ adc_read hw ;;
  _ <~ drv_modify (set_as_calibrate false) ;;
  _ <~ (if rc =? 0 then store_sample else drv_ret tt) ;;
  d <~ drv_get ;;
  if gpio d then
    rc2 <~ gpio_pin_set hw (power_gpios_pin drv_cfg) 0 ;;
    if negb (rc2 =? 0) then drv_ret rc2 else drv_ret rc
  else drv_ret rc.

Definition bvd_sample_fetch (chan : sensor_channel) : drv Z :=
  if negb (chan_supported chan) then drv_ret (- ENOTSUP)
  else
    d <~ drv_get ;;
    if gpio d then
      rc <~ gpio_pin_set hw (power_gpios_pin drv_cfg) 1 ;;
      if negb (rc =? 0) then drv_ret rc else read_and_release
    else read_and_release.

End Driver.

(** ** A concrete board, for evaluating the cycle

    A divider of 2 MOhm under 806 kOhm, the gate on pin 4, a converter with
    a 600 mV reference, gain 1/5 and 12 bits; a previous sample of 3900 mV
    and 73 percent. *)

Definition example_cfg : bvd_config := Build_bvd_config 4 2000000 2806000.

Definition example_data : bvd_data := Build_bvd_data true true 0 3900 73.

Definition example_raw_to_millivolts (val : Z) : Z := Z.shiftr (val * 600 * 5) 12.

(** The read fails with -5; the gate obeys. *)
Definition hw_read_fails : hardware :=
  Build_hardware (fun _ _ => 0) (-5) (fun old => old).

(** The read fails with -5, then switching the gate off fails with -22. *)
Definition hw_read_and_release_fail : hardware :=
  Build_hardware (fun _ value => if value =? 0 then -22 else 0) (-5) (fun old => old).

(** The read succeeds and leaves 0xFFFF in the buffer. *)
Definition hw_overrange : hardware :=
  Build_hardware (fun _ _ => 0) 0 (fun _ => 65535).

(** ** Further exhaustive checks over the interpolated range *)

(** The percent reported at [v], or [-1] where the estimator is undefined. *)
Definition pct_at (v : Z) : Z :=
  match lithium_ion_mv_to_pct v with
  | Some p => p
  | None => -1
  end.

(** Inside the pair starting at index [n], at every voltage from the lower
    to the upper breakpoint, the estimate is the integer quotient formula. *)
Definition bracket_formula_ok (n : nat) : bool :=
  match lut_at charge_level_lut (Z.of_nat n),
        lut_at charge_level_lut (Z.of_nat n + 1) with
  | Some lo, Some hi =>
      forallb (fun k =>
                 let v := mv lo + Z.of_nat k in
                 pct_at v =? pct lo + (pct hi - pct lo) * (v - mv lo) / (mv hi - mv lo))
              (seq 0 (S (Z.to_nat (mv hi - mv lo))))
  | _, _ => false
  end.

(** Below the last breakpoint the estimate is at most 99, and it is 0
    exactly up to 3439 mV. *)
Definition ends_ok (v : Z) : bool :=
  (0 <=? pct_at v) && (pct_at v <=? 99) && Bool.eqb (pct_at v =? 0) (v <=? 3439).

(** One more millivolt adds at most one percent. *)
Definition step_small (v : Z) : bool := pct_at (v + 1) <=? pct_at v + 1.

(** Some voltage of the table's range is estimated at [p] percent. *)
Definition pct_reached (p : nat) : bool :=
  existsb (fun v => pct_at v =? Z.of_nat p) (lut_inputs ++ [4177]).

(** ** Reading a channel *)

Module CInt32.

Definition to_uint32 (z : Z) : Z := z mod 2 ^ 32.

(** Implementation-defined for values from [2^31] on, as [CInt.to_int16]. *)
Definition to_int32 (z : Z) : Z := (z + 2 ^ 31) mod 2 ^ 32 - 2 ^ 31.

End CInt32.

(** [struct sensor_value]: two [int32_t], the integer part and the
    millionths. *)
Record sensor_value : Type := Build_sensor_value { val1 : Z; val2 : Z }.

(** [bvd_channel_get]: the return code and the content of [*val] on return.
    [voltage / 1000] and [voltage % 1000] are [int] operations on the
    promoted [uint16_t]; the product with [1000U] is [unsigned], stored in
    an [int32_t]. *)
Definition bvd_channel_get (ENOTSUP : Z) (d : bvd_data) (chan : sensor_channel)
    (val : sensor_value) : Z * sensor_value :=
  match chan with
  | SENSOR_CHAN_GAUGE_VOLTAGE =>
      (0, Build_sensor_value
            (Z.quot (voltage d) 1000)
            (CInt32.to_int32 (CInt32.to_uint32 (Z.rem (voltage d) 1000 * 1000))))
  | SENSOR_CHAN_GAUGE_STATE_OF_CHARGE =>
      (0, Build_sensor_value (state_of_charge d) 0)
  | _ => (- ENOTSUP, val)
  end.

(** What the stored fields hold between cycles: a 16-bit voltage and the
    percent the estimator gives for it, as the cycle passes it. *)
Definition sample_consistent (d : bvd_data) : Prop :=
  0 <= voltage d < 2 ^ 16
  /\ lithium_ion_mv_to_pct (CInt.to_int16 (voltage d)) = Some (state_of_charge d).

(** The commands a cycle issues, by the path it takes. *)
Definition cycle_commands (hw : hardware) (drv_cfg : bvd_config)
    (chan : sensor_channel) (d : bvd_data) : list event :=
  let pin := power_gpios_pin drv_cfg in
  match chan with
  | SENSOR_CHAN_OTHER _ => []
  | _ =>
      if gpio d then
        if gpio_pin_set_rc hw pin 1 =? 0
        then [GpioPinSet pin 1; AdcRead; GpioPinSet pin 0]
        else [GpioPinSet pin 1]
      else [AdcRead]
  end.

(** Whether the cycle gets as far as [adc_read]. *)
Definition reaches_read (hw : hardware) (drv_cfg : bvd_config)
    (chan : sensor_channel) (d : bvd_data) : bool :=
  match chan with
  | SENSOR_CHAN_OTHER _ => false
  | _ => if gpio d then gpio_pin_set_rc hw (power_gpios_pin drv_cfg) 1 =? 0 else true
  end.

(** ** Initialisation *)

(** The fields of [struct bvd_config] that only [bvd_init] reads;
    [power_gpios_label] is [None] for a null label. *)
Record bvd_wiring : Type := Build_bvd_wiring {
  io_channel_label : String.string;
  io_channel_channel : Z;
  power_gpios_label : option String.string;
  power_gpios_flags : Z
}.

(** The fields of [struct adc_sequence] that [bvd_init] sets beside
    [calibrate]; a compound literal zeroes what it does not name. *)
Record adc_sequence : Type := Build_adc_sequence {
  as_channels : Z;
  as_buffer_size : Z;
  as_oversampling : Z;
  as_resolution : Z
}.

Section Init.

Variable ENODEV : Z.
Variable GPIO_OUTPUT_INACTIVE : Z.

(** [struct adc_channel_cfg], and the value the driver builds for the SAADC
    from the index of the analog input. *)
Variable adc_channel_cfg : Type.
Variable saadc_channel_cfg : Z -> adc_channel_cfg.

(** The rest of [struct bvd_data]: [adc] tells whether the converter's
    device pointer is non-null, [acc] is [None] until [bvd_init] assigns
    the channel configuration. *)
Record bvd_setup : Type := Build_bvd_setup {
  adc : bool;
  acc : option adc_channel_cfg;
  as_ : adc_sequence
}.

(** What initialisation asks of the kernel, in order. *)
Inductive init_event : Type :=
  | DeviceGetBinding (label : String.string)
  | GpioPinConfigure (pin flags : Z)
  | AdcChannelSetup (cfg : adc_channel_cfg).

(** The kernel's answers: whether a label names a device, and the return
    codes of [gpio_pin_configure] and [adc_channel_setup]. *)
Record kernel : Type := Build_kernel {
  device_get_binding : String.string -> bool;
  gpio_pin_configure_rc : Z -> Z -> Z;
  adc_channel_setup_rc : adc_channel_cfg -> Z
}.

Record init_state : Type := Build_init_state {
  init_data : bvd_data;
  init_setup : bvd_setup;
  init_trace : list init_event
}.

Variable k : kernel.
Variable drv_cfg : bvd_config.
Variable wiring : bvd_wiring.

(** From the assignment of [drv_data->as] to the end of the function. *)
Definition init_adc_channel (d : bvd_data) (s : bvd_setup) (tr : list init_event)
  : Z * init_state :=
  let d := set_as_calibrate true d in
  let sequence := Build_adc_sequence 1 2 4 0 in
  let cfg := saadc_channel_cfg (io_channel_channel wiring) in
  let sequence := Build_adc_sequence (as_channels sequence) (as_buffer_size sequence)
                    (as_oversampling sequence) 12 in
  (adc_channel_setup_rc k cfg,
   Build_init_state d (Build_bvd_setup (adc s) (Some cfg) sequence)
     (tr ++ [AdcChannelSetup cfg])).

Definition bvd_init (d : bvd_data) (s : bvd_setup) : Z * init_state :=
  let found := device_get_binding k (io_channel_label wiring) in
  let s := Build_bvd_setup found (acc s) (as_ s) in
  let tr := [DeviceGetBinding (io_channel_label wiring)] in
  if negb found then (- ENODEV, Build_init_state d s tr)
  else
    match power_gpios_label wiring with
    | Some label =>
        let gate := device_get_binding k label in
        let d := Build_bvd_data gate (as_calibrate d) (adc_raw d) (voltage d)
                   (state_of_charge d) in
        let tr := tr ++ [DeviceGetBinding label] in
        if negb gate then (- ENODEV, Build_init_state d s tr)
        else
          let flags := Z.lor GPIO_OUTPUT_INACTIVE (power_gpios_flags wiring) in
          let rc := gpio_pin_configure_rc k (power_gpios_pin drv_cfg) flags in
          let tr := tr ++ [GpioPinConfigure (power_gpios_pin drv_cfg) flags] in
          if negb (rc =? 0) then (rc, Build_init_state d s tr)
          else init_adc_channel d s tr
    | None => init_adc_channel d s tr
    end.

End Init.

Arguments Build_bvd_setup {adc_channel_cfg} adc acc as_.
Arguments adc {adc_channel_cfg} b.
Arguments acc {adc_channel_cfg} b.
Arguments as_ {adc_channel_cfg} b.
Arguments DeviceGetBinding {adc_channel_cfg} label.
Arguments GpioPinConfigure {adc_channel_cfg} pin flags.
Arguments AdcChannelSetup {adc_channel_cfg} cfg.
Arguments Build_kernel {adc_channel_cfg} device_get_binding gpio_pin_configure_rc
  adc_channel_setup_rc.
Arguments device_get_binding {adc_channel_cfg} k label.
Arguments gpio_pin_configure_rc {adc_channel_cfg} k pin flags.
Arguments adc_channel_setup_rc {adc_channel_cfg} k cfg.
Arguments Build_init_state {adc_channel_cfg} init_data init_setup init_trace.
Arguments init_data {adc_channel_cfg} i.
Arguments init_setup {adc_channel_cfg} i.
Arguments init_trace {adc_channel_cfg} i.
Arguments init_adc_channel {adc_channel_cfg} saadc_channel_cfg k wiring d s tr.
Arguments bvd_init ENODEV GPIO_OUTPUT_INACTIVE {adc_channel_cfg} saadc_channel_cfg
  k drv_cfg wiring d s.

(** More of the concrete board: the labels, a kernel that knows both
    devices, the values of the constants, and the data as the loader leaves
    it. *)

Module BoardLabels.
Import String.
Definition adc_label : string := "ADC_0".
Definition gate_label : string := "GPIO_0".
End BoardLabels.

Definition example_wiring : bvd_wiring :=
  Build_bvd_wiring BoardLabels.adc_label 2 (Some BoardLabels.gate_label) 0.

Definition example_kernel : kernel Z :=
  Build_kernel (fun _ => true) (fun _ _ => 0) (fun _ => 0).

Definition kernel_without_adc : kernel Z :=
  Build_kernel (fun _ => false) (fun _ _ => 0) (fun _ => 0).

Definition zero_data : bvd_data := Build_bvd_data false false 0 0 0.

(** The board's constants: [ENODEV] is 19, [GPIO_OUTPUT_INACTIVE] is
    0x1600, and the channel configuration is summarised by the number of
    its positive input. *)
Definition example_init (k : kernel Z) (d : bvd_data) (s : bvd_setup Z)
  : Z * init_state Z :=
  bvd_init 19 5632 (fun channel => 1 + channel) k example_cfg example_wiring d s.

Definition zero_setup : bvd_setup Z :=
  Build_bvd_setup false None (Build_adc_sequence 0 0 0 0).

(** The board after initialisation from zeroed data, and the outcome of an
    initialisation that does not find the converter. *)
Definition example_state : init_state Z :=
  snd (example_init example_kernel zero_data zero_setup).

Definition failed_init : Z * init_state Z :=
  example_init kernel_without_adc zero_data zero_setup.

(** The read succeeds and leaves 40960 in the buffer: 30000 mV at the pin,
    42090 mV after scaling. *)
Definition hw_high : hardware :=
  Build_hardware (fun _ _ => 0) 0 (fun _ => 40960).

(** The read succeeds with 3796 in the buffer (2780 mV at the pin, 3900 mV
    after scaling), then switching the gate off fails with -22. *)
Definition hw_release_fails : hardware :=
  Build_hardware (fun _ value => if value =? 0 then -22 else 0) 0 (fun _ => 3796).

(** The gate refuses to switch on, with -5. *)
Definition hw_gate_stuck : hardware :=
  Build_hardware (fun _ _ => -5) 0 (fun _ => 3796).

(** Unfolding of the cycle's monadic plumbing. *)
Ltac run_drv :=
  cbv beta iota zeta delta
    [bvd_sample_fetch read_and_release store_sample
     drv_bind drv_ret drv_get drv_modify drv_lift gpio_pin_set adc_read
     drv_data trace gpio as_calibrate adc_raw voltage state_of_charge
     set_as_calibrate set_adc_raw set_voltage set_state_of_charge negb].

(** * Properties of the estimator *)

Section ScanFacts.

Variable lut : list charge_level.

Lemma lut_at_In (i : Z) (c : charge_level) :
  lut_at lut i = Some c -> In c lut.
Proof.
  unfold lut_at. destruct (i <? 0); [discriminate |].
  apply nth_error_In.
Qed.

Lemma lut_at_defined (i : Z) :
  0 <= i < Z.of_nat (length lut) -> exists c, lut_at lut i = Some c.
Proof.
  intros Hi. unfold lut_at.
  destruct (Z.ltb_spec i 0) as [Hneg | _]; [lia |].
  destruct (nth_error lut (Z.to_nat i)) as [c |] eqn:E; [now exists c |].
  apply nth_error_None in E. lia.
Qed.

(** A scan that stays inside the array and meets no bracketing pair leaves
    [charge_state] at 0. *)
Lemma lut_scan_no_match (bat_mv : Z) :
  (forall i lo hi, lut_at lut i = Some lo -> lut_at lut (i + 1) = Some hi ->
                   in_bracket lo hi bat_mv = false) ->
  forall fuel lut_idx,
    0 <= lut_idx ->
    lut_idx + Z.of_nat fuel < Z.of_nat (length lut) ->
    lut_scan lut fuel lut_idx bat_mv = Some 0.
Proof.
  intros Hno fuel.
  induction fuel as [| fuel IH]; intros idx Hidx Hlen; [reflexivity |].
  cbn [lut_scan].
  destruct (lut_at_defined idx) as [lo Hlo]; [lia |].
  destruct (lut_at_defined (idx + 1)) as [hi Hhi]; [lia |].
  rewrite Hlo. cbn [ub_bind].
  pose proof (Hno idx lo hi Hlo Hhi) as Hb. unfold in_bracket in Hb.
  destruct (mv lo <=? bat_mv); cbn [andb] in Hb.
  - rewrite Hhi. cbn [ub_bind]. rewrite Hb. apply IH; lia.
  - apply IH; lia.
Qed.


End ScanFacts.

Lemma lut_length : length charge_level_lut = 27%nat.
Proof. reflexivity. Qed.

Lemma lut_top : lut_at charge_level_lut (BATTERY_CHARGE_LEVEL_LUT_COUNT - 1)
                = Some (Build_charge_level 4177 100).
Proof. reflexivity. Qed.

Lemma lut_floor (c : charge_level) : In c charge_level_lut -> 3434 <= mv c.
Proof.
  assert (H : forallb (fun c => 3434 <=? mv c) charge_level_lut = true)
    by (vm_compute; reflexivity).
  rewrite forallb_forall in H. intros Hc. apply Z.leb_le. now apply H.
Qed.

Lemma below_no_bracket (v : Z) (i : Z) (lo hi : charge_level) :
  v < 3434 ->
  lut_at charge_level_lut i = Some lo ->
  lut_at charge_level_lut (i + 1) = Some hi ->
  in_bracket lo hi v = false.
Proof.
  intros Hv Hlo _. apply lut_at_In, lut_floor in Hlo.
  unfold in_bracket. destruct (Z.leb_spec (mv lo) v); [lia | reflexivity].
Qed.

Lemma estimate_below (v : Z) : v < 3434 -> lithium_ion_mv_to_pct v = Some 0.
Proof.
  intros Hv. unfold lithium_ion_mv_to_pct, lithium_ion_mv_to_pct_on.
  rewrite lut_top. cbn [ub_bind mv].
  rewrite Z.geb_leb. destruct (Z.leb_spec 4177 v); [lia |].
  apply lut_scan_no_match.
  - intros i lo hi. now apply below_no_bracket.
  - lia.
  - rewrite lut_length. vm_compute. reflexivity.
Qed.

Lemma estimate_above (v : Z) : 4177 <= v -> lithium_ion_mv_to_pct v = Some 100.
Proof.
  intros Hv. unfold lithium_ion_mv_to_pct, lithium_ion_mv_to_pct_on.
  rewrite lut_top. cbn [ub_bind mv].
  rewrite Z.geb_leb. destruct (Z.leb_spec 4177 v); [reflexivity | lia].
Qed.

Lemma lut_inputs_In (v : Z) : 3434 <= v < 4177 -> In v lut_inputs.
Proof.
  intros Hv. unfold lut_inputs. apply in_map_iff.
  exists (Z.to_nat (v - 3434)). split; [lia |].
  apply in_seq. lia.
Qed.

Lemma all_steps_ok : forallb step_ok lut_inputs = true.
Proof. vm_compute. reflexivity. Qed.

Lemma all_agree_with_spec : forallb agrees_with_spec lut_inputs = true.
Proof. vm_compute. reflexivity. Qed.

Lemma all_breakpoints_hit : forallb hits_breakpoint charge_level_lut = true.
Proof. vm_compute. reflexivity. Qed.

Lemma estimate_step (v : Z) :
  3434 <= v < 4177 ->
  exists a b, lithium_ion_mv_to_pct v = Some a /\
              lithium_ion_mv_to_pct (v + 1) = Some b /\
              0 <= a /\ a <= b /\ b <= 100.
Proof.
  intros Hv. pose proof all_steps_ok as H. rewrite forallb_forall in H.
  specialize (H v (lut_inputs_In v Hv)). unfold step_ok in H.
  destruct (lithium_ion_mv_to_pct v) as [a |]; [| discriminate].
  destruct (lithium_ion_mv_to_pct (v + 1)) as [b |]; [| discriminate].
  exists a, b. rewrite !andb_true_iff, !Z.leb_le in H. intuition.
Qed.

(** The estimator is defined everywhere, within 0 and 100. *)
Lemma estimate_defined (v : Z) :
  exists p, lithium_ion_mv_to_pct v = Some p /\ 0 <= p <= 100.
Proof.
  destruct (Z.lt_ge_cases v 3434) as [Hlo | Hlo].
  - exists 0. split; [now apply estimate_below | lia].
  - destruct (Z.le_gt_cases 4177 v) as [Hhi | Hhi].
    + exists 100. split; [now apply estimate_above | lia].
    + destruct (estimate_step v) as (a & b & Ha & _ & H0 & Hab & Hb); [lia |].
      exists a. split; [exact Ha | lia].
Qed.

(** Monotonicity over a run of [n] consecutive inputs inside the table. *)
Lemma estimate_mono_run (n : nat) :
  forall v, 3434 <= v -> v + Z.of_nat n <= 4177 ->
    exists a b, lithium_ion_mv_to_pct v = Some a /\
                lithium_ion_mv_to_pct (v + Z.of_nat n) = Some b /\ a <= b.
Proof.
  induction n as [| n IH]; intros v Hlo Hhi.
  - destruct (estimate_defined v) as (p & Hp & _).
    exists p, p. rewrite Z.add_0_r. repeat split; [exact Hp | exact Hp | lia].
  - destruct (estimate_step v) as (a & b & Ha & Hb & _ & Hab & _); [lia |].
    destruct (IH (v + 1)) as (b' & c & Hb' & Hc & Hbc); [lia | lia |].
    rewrite Hb in Hb'. injection Hb' as <-.
    exists a, c. replace (v + Z.of_nat (S n)) with (v + 1 + Z.of_nat n) by lia.
    repeat split; [exact Ha | exact Hc | lia].
Qed.

Lemma find_all_false {A : Type} (f : A -> bool) (l : list A) :
  (forall x, In x l -> f x = false) -> find f l = None.
Proof.
  induction l as [| a l IH]; intros H; [reflexivity |].
  cbn [find]. rewrite (H a (or_introl eq_refl)).
  apply IH. intros x Hx. apply H. now right.
Qed.

Lemma spec_estimate_below (v : Z) : v < 3434 -> spec_estimate v = 0.
Proof.
  intros Hv. unfold spec_estimate.
  change (last (map mv charge_level_lut) 0) with 4177.
  destruct (Z.leb_spec 4177 v); [lia |].
  unfold spec_first_bracket. rewrite find_all_false; [reflexivity |].
  intros [lo hi] Hp. apply in_combine_l, lut_floor in Hp.
  unfold in_bracket. cbn [fst snd].
  destruct (Z.leb_spec (mv lo) v); [lia | reflexivity].
Qed.

Lemma spec_estimate_above (v : Z) : 4177 <= v -> spec_estimate v = 100.
Proof.
  intros Hv. unfold spec_estimate.
  change (last (map mv charge_level_lut) 0) with 4177.
  destruct (Z.leb_spec 4177 v); [reflexivity | lia].
Qed.

(** The double-precision code computes what the exact rational formula of
    the specification computes, at every input. *)
Lemma estimator_refines_spec (v : Z) :
  lithium_ion_mv_to_pct v = Some (spec_estimate v).
Proof.
  destruct (Z.lt_ge_cases v 3434) as [Hlo | Hlo].
  - now rewrite estimate_below, spec_estimate_below.
  - destruct (Z.le_gt_cases 4177 v) as [Hhi | Hhi].
    + now rewrite estimate_above, spec_estimate_above.
    + pose proof all_agree_with_spec as H. rewrite forallb_forall in H.
      specialize (H v (lut_inputs_In v (conj Hlo Hhi))).
      unfold agrees_with_spec in H.
      destruct (lithium_ion_mv_to_pct v) as [p |]; [| discriminate].
      apply Z.eqb_eq in H. now subst p.
Qed.

Lemma lut_adjacent_ascending (i : Z) (lo hi : charge_level) :
  lut_at charge_level_lut i = Some lo ->
  lut_at charge_level_lut (i + 1) = Some hi ->
  mv lo < mv hi.
Proof.
  intros Hlo Hhi.
  assert (Hi : 0 <= i < 26).
  { unfold lut_at in Hlo, Hhi.
    destruct (Z.ltb_spec i 0); [discriminate |].
    destruct (Z.ltb_spec (i + 1) 0); [discriminate |].
    assert (Hn : (Z.to_nat (i + 1) < length charge_level_lut)%nat)
      by (apply nth_error_Some; congruence).
    rewrite lut_length in Hn. lia. }
  assert (H : forallb (fun n =>
                match lut_at charge_level_lut (Z.of_nat n),
                      lut_at charge_level_lut (Z.of_nat n + 1) with
                | Some a, Some b => mv a <? mv b
                | _, _ => false
                end) (seq 0 26) = true) by (vm_compute; reflexivity).
  rewrite forallb_forall in H.
  specialize (H (Z.to_nat i)). rewrite Z2Nat.id in H by lia.
  rewrite Hlo, Hhi in H. apply Z.ltb_lt, H, in_seq. lia.
Qed.

(** C1: at 3650 mV the bracket is {3643,42}..{3656,46} and the estimate is
    exactly 44, the truncation of 42 + (46-42)*(3650-3643)/(3656-3643). *)
Theorem estimate_3650 :
  spec_first_bracket charge_level_lut 3650
    = Some (Build_charge_level 3643 42, Build_charge_level 3656 46)
  /\ lut_at charge_level_lut 11 = Some (Build_charge_level 3643 42)
  /\ lut_at charge_level_lut 12 = Some (Build_charge_level 3656 46)
  /\ Double.to_uint8
       (interpolate (Build_charge_level 3643 42) (Build_charge_level 3656 46) 3650)
     = Some 44
  /\ lithium_ion_mv_to_pct 3650 = Some 44
  /\ Qtruncate (inject_Z 42
                + inject_Z (46 - 42) * inject_Z (3650 - 3643) / inject_Z (3656 - 3643))%Q
     = 44.
Proof. repeat split; vm_compute; reflexivity. Qed.











(** C3: the estimator is monotonically non-decreasing: for inputs
    [v1 <= v2] both estimates are defined and the first is at most the
    second. *)
Theorem estimate_monotone (v1 v2 : Z) :
  v1 <= v2 ->
  exists p1 p2, lithium_ion_mv_to_pct v1 = Some p1 /\
                lithium_ion_mv_to_pct v2 = Some p2 /\ p1 <= p2.
Proof.
  intros Hle.
  destruct (Z.lt_ge_cases v1 3434) as [Hlo | Hlo].
  - destruct (estimate_defined v2) as (p2 & Hp2 & Hr).
    exists 0, p2. repeat split; [now apply estimate_below | exact Hp2 | lia].
  - destruct (Z.le_gt_cases 4177 v2) as [Hhi | Hhi].
    + destruct (estimate_defined v1) as (p1 & Hp1 & Hr).
      exists p1, 100. repeat split; [exact Hp1 | now apply estimate_above | lia].
    + destruct (estimate_mono_run (Z.to_nat (v2 - v1)) v1) as (a & b & Ha & Hb & Hab);
        [lia | lia |].
      replace (v1 + Z.of_nat (Z.to_nat (v2 - v1))) with v2 in Hb by lia.
      now exists a, b.
Qed.

Lemma estimate_monotone_witness :
  3650 <= 3700 /\
  exists p1 p2, lithium_ion_mv_to_pct 3650 = Some p1 /\
                lithium_ion_mv_to_pct 3700 = Some p2 /\ p1 <= p2.
Proof.
  split; [discriminate |].
  apply (estimate_monotone 3650 3700). discriminate.
Defined.

(** C4: the estimator is total: every input has a percent between 0 and
    100, nothing is undefined, and inputs outside the table give 0 (below)
    or 100 (at or above the last breakpoint). *)
Theorem estimate_total (v : Z) :
  exists p, lithium_ion_mv_to_pct v = Some p
            /\ 0 <= p <= 100
            /\ (v < 3434 -> p = 0)
            /\ (4177 <= v -> p = 100).
Proof.
  destruct (estimate_defined v) as (p & Hp & Hr).
  exists p. repeat split; try lia; try exact Hp.
  - intros Hv. rewrite (estimate_below v Hv) in Hp. congruence.
  - intros Hv. rewrite (estimate_above v Hv) in Hp. congruence.
Qed.

(** C5: upper saturation: every input at or above 4177 mV, the last
    breakpoint, gives 100. *)
Theorem upper_saturation (v : Z) :
  4177 <= v -> lithium_ion_mv_to_pct v = Some 100.
Proof. apply estimate_above. Qed.

Lemma upper_saturation_witness :
  4177 <= 5000 /\ lithium_ion_mv_to_pct 5000 = Some 100.
Proof.
  split; [discriminate |].
  apply (upper_saturation 5000). discriminate.
Defined.

(** C6: lower saturation by fallthrough: for an input below 3434 mV, the
    first breakpoint, no adjacent pair of the table brackets the input, the
    scan runs to its end with [charge_state] still 0, and 0 is returned. *)
Theorem lower_saturation (v : Z) :
  v < 3434 ->
  spec_first_bracket charge_level_lut v = None
  /\ (forall i lo hi,
        lut_at charge_level_lut i = Some lo ->
        lut_at charge_level_lut (i + 1) = Some hi ->
        in_bracket lo hi v = false)
  /\ lut_scan charge_level_lut (Z.to_nat (BATTERY_CHARGE_LEVEL_LUT_COUNT - 1)) 0 v = Some 0
  /\ lithium_ion_mv_to_pct v = Some 0.
Proof.
  intros Hv. split; [| split; [| split]].
  - unfold spec_first_bracket. apply find_all_false.
    intros [lo hi] Hp. apply in_combine_l, lut_floor in Hp.
    unfold in_bracket. cbn [fst snd].
    destruct (Z.leb_spec (mv lo) v); [lia | reflexivity].
  - intros i lo hi. now apply below_no_bracket.
  - apply lut_scan_no_match.
    + intros i lo hi. now apply below_no_bracket.
    + lia.
    + rewrite lut_length. vm_compute. reflexivity.
  - now apply estimate_below.
Qed.

Lemma lower_saturation_witness :
  3000 < 3434 /\ lithium_ion_mv_to_pct 3000 = Some 0.
Proof.
  split; [reflexivity |].
  apply (lower_saturation 3000). reflexivity.
Defined.

(** C7: an input equal to the voltage of a breakpoint of the table gives
    that breakpoint's stored percent; in particular 3434 mV gives 0 and
    4177 mV gives 100. *)
Theorem breakpoint_exact :
  (forall c, In c charge_level_lut -> lithium_ion_mv_to_pct (mv c) = Some (pct c))
  /\ lithium_ion_mv_to_pct 3434 = Some 0
  /\ lithium_ion_mv_to_pct 4177 = Some 100.
Proof.
  split; [| split; vm_compute; reflexivity].
  intros c Hc. pose proof all_breakpoints_hit as H.
  rewrite forallb_forall in H. specialize (H c Hc).
  unfold hits_breakpoint in H.
  destruct (lithium_ion_mv_to_pct (mv c)) as [p |]; [| discriminate].
  apply Z.eqb_eq in H. now subst p.
Qed.

Lemma breakpoint_exact_witness :
  In (Build_charge_level 3643 42) charge_level_lut
  /\ lithium_ion_mv_to_pct 3643 = Some 42.
Proof.
  assert (H : In (Build_charge_level 3643 42) charge_level_lut).
  { unfold charge_level_lut. cbn [map fst snd].
    do 11 right. left. reflexivity. }
  split; [exact H |].
  exact (proj1 breakpoint_exact (Build_charge_level 3643 42) H).
Defined.

(** * Properties of the sampling cycle *)

Section Cycle.

Variable ENOTSUP : Z.
Variable adc_raw_to_millivolts : Z -> Z.
Variable hw : hardware.
Variable drv_cfg : bvd_config.

Local Abbreviation fetch := (bvd_sample_fetch ENOTSUP adc_raw_to_millivolts hw drv_cfg).
Local Abbreviation pin := (power_gpios_pin drv_cfg).

Lemma scale_up_defined (val : Z) :
  output_ohm drv_cfg <> 0 ->
  scale_up drv_cfg val
  = Some (CInt.to_uint64 (CInt.to_uint64 val * full_ohm drv_cfg) / output_ohm drv_cfg).
Proof.
  intros H. unfold scale_up.
  destruct (Z.eqb_spec (output_ohm drv_cfg) 0); [contradiction | reflexivity].
Qed.

(** Without wrap-around the 64-bit expression is the plain quotient. *)
Lemma scale_up_exact (val : Z) :
  0 <= val < 2 ^ 31 -> 0 <= full_ohm drv_cfg < 2 ^ 32 ->
  CInt.to_uint64 (CInt.to_uint64 val * full_ohm drv_cfg) / output_ohm drv_cfg
  = val * full_ohm drv_cfg / output_ohm drv_cfg.
Proof.
  intros Hv Hf. unfold CInt.to_uint64.
  rewrite (Z.mod_small val) by lia.
  rewrite Z.mod_small; [reflexivity |].
  split; [nia |].
  apply Z.le_lt_trans with (2 ^ 31 * 2 ^ 32); [| reflexivity].
  apply Z.mul_le_mono_nonneg; lia.
Qed.

(** The cycle from the read on, when the read fails. *)
Lemma read_and_release_failed (d : bvd_data) (tr : list event) :
  adc_read_rc hw <> 0 ->
  let d' := set_as_calibrate false
              (set_adc_raw (CInt.to_uint16 (adc_read_sample hw (adc_raw d))) d) in
  read_and_release adc_raw_to_millivolts hw drv_cfg (Build_world d tr)
  = if gpio d then
      Some (if gpio_pin_set_rc hw pin 0 =? 0 then adc_read_rc hw
            else gpio_pin_set_rc hw pin 0,
            Build_world d' ((tr ++ [AdcRead]) ++ [GpioPinSet pin 0]))
    else Some (adc_read_rc hw, Build_world d' (tr ++ [AdcRead])).
Proof.
  intros Hrc d'. subst d'. destruct d as [g c r v s]. run_drv.
  destruct (Z.eqb_spec (adc_read_rc hw) 0) as [E | _]; [contradiction |].
  destruct g; [| reflexivity].
  destruct (gpio_pin_set_rc hw (power_gpios_pin drv_cfg) 0 =? 0); reflexivity.
Qed.

(** The cycle from the read on, when the read succeeds and the divider
    has a non-zero output resistor. *)
Lemma read_and_release_ok (d : bvd_data) (tr : list event) :
  adc_read_rc hw = 0 ->
  output_ohm drv_cfg <> 0 ->
  let raw := CInt.to_uint16 (adc_read_sample hw (adc_raw d)) in
  let scaled := CInt.to_uint64 (CInt.to_uint64 (adc_raw_to_millivolts raw)
                                * full_ohm drv_cfg) / output_ohm drv_cfg in
  let millivolts := CInt.to_uint16 scaled in
  exists percent,
    lithium_ion_mv_to_pct (CInt.to_int16 millivolts) = Some percent
    /\ 0 <= percent <= 100
    /\ let d' := Build_bvd_data (gpio d) false raw millivolts percent in
       read_and_release adc_raw_to_millivolts hw drv_cfg (Build_world d tr)
       = if gpio d then
           Some (if gpio_pin_set_rc hw pin 0 =? 0 then 0
                 else gpio_pin_set_rc hw pin 0,
                 Build_world d' ((tr ++ [AdcRead]) ++ [GpioPinSet pin 0]))
         else Some (0, Build_world d' (tr ++ [AdcRead])).
Proof.
  intros Hrc Hout raw scaled millivolts.
  destruct (estimate_defined (CInt.to_int16 millivolts)) as (p & Hp & Hr).
  exists p. split; [exact Hp |]. split; [exact Hr |].
  destruct d as [g c r v s]. run_drv. rewrite Hrc. cbn [Z.eqb].
  rewrite scale_up_defined by exact Hout.
  cbv beta iota delta [adc_raw] in raw. fold raw. fold scaled. fold millivolts. rewrite Hp.
  destruct g; [| reflexivity].
  destruct (gpio_pin_set_rc hw (power_gpios_pin drv_cfg) 0 =? 0); reflexivity.
Qed.

(** An analog read that succeeds with a zero output resistor divides by
    zero. *)
Lemma read_and_release_undefined (d : bvd_data) (tr : list event) :
  adc_read_rc hw = 0 ->
  output_ohm drv_cfg = 0 ->
  read_and_release adc_raw_to_millivolts hw drv_cfg (Build_world d tr) = None.
Proof.
  intros Hrc Hout. destruct d as [g c r v s]. run_drv.
  rewrite Hrc. cbn [Z.eqb]. unfold scale_up. rewrite Hout. reflexivity.
Qed.

(** Up to the read: a supported channel, and the gate, if there is one,
    enabled without error. *)
Lemma fetch_reaches_read (chan : sensor_channel) (d : bvd_data) (tr : list event) :
  chan_supported chan = true ->
  (gpio d = true -> gpio_pin_set_rc hw pin 1 = 0) ->
  fetch chan (Build_world d tr)
  = read_and_release adc_raw_to_millivolts hw drv_cfg
      (Build_world d (if gpio d then tr ++ [GpioPinSet pin 1] else tr)).
Proof.
  intros Hchan Hen. unfold bvd_sample_fetch.
  rewrite Hchan. cbn [negb].
  unfold drv_bind at 1. unfold drv_get at 1. cbn [drv_data].
  destruct (gpio d) eqn:G; [| reflexivity].
  unfold drv_bind at 1. unfold gpio_pin_set at 1. cbn [drv_data trace].
  rewrite (Hen eq_refl). reflexivity.
Qed.

(** C8, as the code has it: when the analog read of a cycle fails, the
    stored voltage and state of charge keep their previous values and the
    cycle returns a non-zero error code: the read's, unless a power gate
    is present and switching it off fails too, in which case it is the
    code of that second failure. *)
Theorem read_failure_retains_sample
    (chan : sensor_channel) (d : bvd_data) (tr : list event) :
  chan_supported chan = true ->
  (gpio d = true -> gpio_pin_set_rc hw pin 1 = 0) ->
  adc_read_rc hw <> 0 ->
  exists rc w',
    fetch chan (Build_world d tr) = Some (rc, w')
    /\ voltage (drv_data w') = voltage d
    /\ state_of_charge (drv_data w') = state_of_charge d
    /\ rc <> 0
    /\ rc = if gpio d && negb (gpio_pin_set_rc hw pin 0 =? 0)
            then gpio_pin_set_rc hw pin 0
            else adc_read_rc hw.
Proof.
  intros Hchan Hen Hrc.
  rewrite (fetch_reaches_read chan d tr Hchan Hen).
  rewrite (read_and_release_failed d _ Hrc).
  destruct (gpio d); cbn [andb].
  - destruct (Z.eqb_spec (gpio_pin_set_rc hw pin 0) 0) as [E | E]; cbn [negb];
      eexists; eexists; (split; [reflexivity |]); cbn [drv_data];
      destruct d; repeat split; assumption.
  - eexists; eexists; (split; [reflexivity |]); cbn [drv_data];
      destruct d; repeat split; assumption.
Qed.

(** C9: in a cycle whose power gate was enabled without error, the gate
    is commanded inactive before the cycle returns, whether the analog
    read succeeds or fails: the cycle returns (the read failing or the
    output resistor being non-zero), and whenever it returns its last
    command to the devices is the gate set to 0. *)
Theorem power_gate_released
    (chan : sensor_channel) (d : bvd_data) (tr : list event) :
  chan_supported chan = true ->
  gpio d = true ->
  gpio_pin_set_rc hw pin 1 = 0 ->
  (adc_read_rc hw <> 0 \/ output_ohm drv_cfg <> 0 ->
   exists rc d',
     fetch chan (Build_world d tr)
     = Some (rc, Build_world d' (tr ++ [GpioPinSet pin 1; AdcRead; GpioPinSet pin 0])))
  /\ (forall rc w',
        fetch chan (Build_world d tr) = Some (rc, w') ->
        trace w' = tr ++ [GpioPinSet pin 1; AdcRead; GpioPinSet pin 0]).
Proof.
  intros Hchan G Hen.
  rewrite (fetch_reaches_read chan d tr Hchan (fun _ => Hen)). rewrite G.
  assert (Hreturns : adc_read_rc hw <> 0 \/ output_ohm drv_cfg <> 0 ->
            exists rc d',
              read_and_release adc_raw_to_millivolts hw drv_cfg
                (Build_world d (tr ++ [GpioPinSet pin 1]))
              = Some (rc, Build_world d'
                            (tr ++ [GpioPinSet pin 1; AdcRead; GpioPinSet pin 0]))).
  { intros Hcond.
    destruct (Z.eq_dec (adc_read_rc hw) 0) as [Hrc | Hrc].
    - destruct Hcond as [Hcond | Hout]; [contradiction |].
      destruct (read_and_release_ok d (tr ++ [GpioPinSet pin 1]) Hrc Hout)
        as (p & _ & _ & Hrun).
      cbv zeta in Hrun. rewrite G in Hrun. rewrite Hrun.
      rewrite <- !app_assoc. cbn [app]. eexists; eexists; reflexivity.
    - rewrite (read_and_release_failed d _ Hrc). rewrite G.
      rewrite <- !app_assoc. cbn [app]. eexists; eexists; reflexivity. }
  split; [exact Hreturns |].
  intros rc w' Hrun.
  destruct (Z.eq_dec (adc_read_rc hw) 0) as [Hrc | Hrc].
  - destruct (Z.eq_dec (output_ohm drv_cfg) 0) as [Hout | Hout].
    + rewrite (read_and_release_undefined d _ Hrc Hout) in Hrun. discriminate.
    + destruct (Hreturns (or_intror Hout)) as (rc0 & d0 & E).
      rewrite E in Hrun. injection Hrun as _ <-. reflexivity.
  - destruct (Hreturns (or_introl Hrc)) as (rc0 & d0 & E).
    rewrite E in Hrun. injection Hrun as _ <-. reflexivity.
Qed.

(** C10: the scaled value is computed in 64 bits and stored in a 16-bit
    unsigned variable: when it is 65536 or more, the stored millivolts
    are the scaled value modulo 2^16 (not the scaled value, and not a
    saturated one), and the percent stored is the estimate of those
    wrapped millivolts. *)
Theorem millivolts_wrap
    (chan : sensor_channel) (d : bvd_data) (tr : list event) :
  chan_supported chan = true ->
  (gpio d = true -> gpio_pin_set_rc hw pin 1 = 0) ->
  adc_read_rc hw = 0 ->
  output_ohm drv_cfg <> 0 ->
  let val := adc_raw_to_millivolts (CInt.to_uint16 (adc_read_sample hw (adc_raw d))) in
  let scaled := CInt.to_uint64 (CInt.to_uint64 val * full_ohm drv_cfg)
                / output_ohm drv_cfg in
  65536 <= scaled ->
  (0 <= val < 2 ^ 31 -> 0 <= full_ohm drv_cfg < 2 ^ 32 ->
   scaled = val * full_ohm drv_cfg / output_ohm drv_cfg)
  /\ exists rc w' percent,
       fetch chan (Build_world d tr) = Some (rc, w')
       /\ voltage (drv_data w') = scaled mod 2 ^ 16
       /\ 0 <= voltage (drv_data w') < 65536
       /\ voltage (drv_data w') <> scaled
       /\ lithium_ion_mv_to_pct (CInt.to_int16 (scaled mod 2 ^ 16)) = Some percent
       /\ state_of_charge (drv_data w') = percent.
Proof.
  intros Hchan Hen Hrc Hout val scaled Hbig.
  split; [intros Hv Hf; now apply scale_up_exact |].
  rewrite (fetch_reaches_read chan d tr Hchan Hen).
  destruct (read_and_release_ok d (if gpio d then tr ++ [GpioPinSet pin 1] else tr)
              Hrc Hout) as (p & Hp & _ & Hrun).
  cbv zeta in Hrun. fold val in Hrun, Hp. fold scaled in Hrun, Hp.
  unfold CInt.to_uint16 in Hrun, Hp at 1.
  assert (Hm : 0 <= scaled mod 2 ^ 16 < 65536)
    by (apply Z.mod_pos_bound; reflexivity).
  destruct (gpio d); rewrite Hrun; eexists; eexists; exists p;
    (split; [reflexivity |]); cbn [drv_data voltage state_of_charge];
    repeat split; try exact Hp; lia.
Qed.

End Cycle.

Lemma read_failure_retains_sample_witness :
  exists rc w',
    bvd_sample_fetch 134 example_raw_to_millivolts hw_read_fails example_cfg
      SENSOR_CHAN_ALL (Build_world example_data []) = Some (rc, w')
    /\ voltage (drv_data w') = 3900
    /\ state_of_charge (drv_data w') = 73
    /\ rc <> 0
    /\ rc = -5.
Proof.
  apply (read_failure_retains_sample 134 example_raw_to_millivolts hw_read_fails
           example_cfg SENSOR_CHAN_ALL example_data []);
    [reflexivity | reflexivity | discriminate].
Defined.

(** C8, as claimed, fails: the read fails with -5, the gate then fails to
    switch off with -22, and the cycle returns -22, not the read's code. *)
Lemma read_failure_code_counterexample :
  adc_read_rc hw_read_and_release_fail = -5
  /\ bvd_sample_fetch 134 example_raw_to_millivolts hw_read_and_release_fail example_cfg
       SENSOR_CHAN_ALL (Build_world example_data [])
     = Some (-22, Build_world (Build_bvd_data true false 0 3900 73)
                    [GpioPinSet 4 1; AdcRead; GpioPinSet 4 0])
  /\ -22 <> adc_read_rc hw_read_and_release_fail.
Proof.
  split; [reflexivity |]. split; [vm_compute; reflexivity | discriminate].
Qed.

Lemma power_gate_released_witness :
  exists rc d',
    bvd_sample_fetch 134 example_raw_to_millivolts hw_read_fails example_cfg
      SENSOR_CHAN_GAUGE_VOLTAGE (Build_world example_data [])
    = Some (rc, Build_world d' [GpioPinSet 4 1; AdcRead; GpioPinSet 4 0]).
Proof.
  apply (proj1 (power_gate_released 134 example_raw_to_millivolts hw_read_fails
                  example_cfg SENSOR_CHAN_GAUGE_VOLTAGE example_data []
                  eq_refl eq_refl eq_refl)).
  left. discriminate.
Defined.

Lemma millivolts_wrap_witness :
  exists rc w' percent,
    bvd_sample_fetch 134 example_raw_to_millivolts hw_overrange example_cfg
      SENSOR_CHAN_ALL (Build_world example_data []) = Some (rc, w')
    /\ voltage (drv_data w') = 67342 mod 2 ^ 16
    /\ 0 <= voltage (drv_data w') < 65536
    /\ voltage (drv_data w') <> 67342
    /\ lithium_ion_mv_to_pct (CInt.to_int16 (67342 mod 2 ^ 16)) = Some percent
    /\ state_of_charge (drv_data w') = percent.
Proof.
  apply (millivolts_wrap 134 example_raw_to_millivolts hw_overrange example_cfg
           SENSOR_CHAN_ALL example_data []);
    [reflexivity | reflexivity | reflexivity | discriminate | discriminate].
Defined.

(** The cycle evaluated on an over-range sample: 0xFFFF in the buffer is
    47999 mV at the pin and 67342 mV after scaling; 1806 mV and 0 percent
    are stored. *)
Example overrange_cycle :
  bvd_sample_fetch 134 example_raw_to_millivolts hw_overrange example_cfg
    SENSOR_CHAN_ALL (Build_world example_data [])
  = Some (0, Build_world (Build_bvd_data true false 65535 1806 0)
               [GpioPinSet 4 1; AdcRead; GpioPinSet 4 0]).
Proof. vm_compute. reflexivity. Qed.

(** * Further properties of the estimator *)

Lemma pct_at_defined (v : Z) : lithium_ion_mv_to_pct v = Some (pct_at v).
Proof.
  unfold pct_at. destruct (estimate_defined v) as (p & Hp & _). now rewrite Hp.
Qed.

Lemma lut_adjacent_index (i : Z) (lo hi : charge_level) :
  lut_at charge_level_lut i = Some lo ->
  lut_at charge_level_lut (i + 1) = Some hi ->
  0 <= i < 26.
Proof.
  intros Hlo Hhi. unfold lut_at in Hlo, Hhi.
  destruct (Z.ltb_spec i 0); [discriminate |].
  destruct (Z.ltb_spec (i + 1) 0); [discriminate |].
  assert (Hn : (Z.to_nat (i + 1) < List.length charge_level_lut)%nat)
    by (apply nth_error_Some; congruence).
  rewrite lut_length in Hn. lia.
Qed.

Lemma all_brackets_formula : forallb bracket_formula_ok (seq 0 26) = true.
Proof. vm_compute. reflexivity. Qed.

Lemma all_ends_ok : forallb ends_ok lut_inputs = true.
Proof. vm_compute. reflexivity. Qed.

Lemma all_steps_small : forallb step_small lut_inputs = true.
Proof. vm_compute. reflexivity. Qed.

Lemma all_pct_reached : forallb pct_reached (seq 0 101) = true.
Proof. vm_compute. reflexivity. Qed.

(** The double-precision interpolation inside any adjacent pair of the
    table, as an integer quotient. *)
Lemma bracket_formula (i : Z) (lo hi : charge_level) (v : Z) :
  lut_at charge_level_lut i = Some lo ->
  lut_at charge_level_lut (i + 1) = Some hi ->
  mv lo <= v <= mv hi ->
  pct_at v = pct lo + (pct hi - pct lo) * (v - mv lo) / (mv hi - mv lo).
Proof.
  intros Hlo Hhi Hv.
  pose proof (lut_adjacent_index i lo hi Hlo Hhi) as Hi.
  pose proof all_brackets_formula as H. rewrite forallb_forall in H.
  specialize (H (Z.to_nat i)). unfold bracket_formula_ok in H.
  rewrite Z2Nat.id in H by lia. rewrite Hlo, Hhi in H.
  assert (Hin : In (Z.to_nat i) (seq 0 26)) by (apply in_seq; lia).
  specialize (H Hin). rewrite forallb_forall in H.
  specialize (H (Z.to_nat (v - mv lo))).
  cbv zeta in H. rewrite Z2Nat.id in H by lia.
  replace (mv lo + (v - mv lo)) with v in H by lia.
  apply Z.eqb_eq, H, in_seq. lia.
Qed.

Lemma lut_adjacent_pct (i : Z) (lo hi : charge_level) :
  lut_at charge_level_lut i = Some lo ->
  lut_at charge_level_lut (i + 1) = Some hi ->
  pct lo <= pct hi.
Proof.
  intros Hlo Hhi.
  pose proof (lut_adjacent_index i lo hi Hlo Hhi) as Hi.
  assert (H : forallb (fun n =>
                match lut_at charge_level_lut (Z.of_nat n),
                      lut_at charge_level_lut (Z.of_nat n + 1) with
                | Some a, Some b => pct a <=? pct b
                | _, _ => false
                end) (seq 0 26) = true) by (vm_compute; reflexivity).
  rewrite forallb_forall in H.
  specialize (H (Z.to_nat i)). rewrite Z2Nat.id in H by lia.
  rewrite Hlo, Hhi in H. apply Z.leb_le, H, in_seq. lia.
Qed.

Lemma ends_ok_range (v : Z) :
  3434 <= v < 4177 ->
  0 <= pct_at v <= 99 /\ (pct_at v = 0 <-> v <= 3439).
Proof.
  intros Hv. pose proof all_ends_ok as H. rewrite forallb_forall in H.
  specialize (H v (lut_inputs_In v Hv)). unfold ends_ok in H.
  rewrite !andb_true_iff, !Z.leb_le in H. destruct H as [[H0 H99] Hz].
  apply eqb_prop in Hz. split; [lia |].
  rewrite <- Z.eqb_eq, <- Z.leb_le, Hz. reflexivity.
Qed.

(** X1: inside every adjacent pair of the table, bounds included, the
    double-precision interpolation returns exactly the integer
    [lo.pct + (hi.pct - lo.pct) * (v - lo.mv) / (hi.mv - lo.mv)], the
    quotient rounded down: rounding in the doubles never changes the
    percent. *)
Theorem estimate_integer_formula (i : Z) (lo hi : charge_level) (v : Z) :
  lut_at charge_level_lut i = Some lo ->
  lut_at charge_level_lut (i + 1) = Some hi ->
  mv lo <= v <= mv hi ->
  lithium_ion_mv_to_pct v
  = Some (pct lo + (pct hi - pct lo) * (v - mv lo) / (mv hi - mv lo)).
Proof.
  intros Hlo Hhi Hv. rewrite pct_at_defined.
  now rewrite (bracket_formula i lo hi v Hlo Hhi Hv).
Qed.

Lemma estimate_integer_formula_witness :
  lithium_ion_mv_to_pct 3700
  = Some (54 + (58 - 54) * (3700 - 3696) / (3733 - 3696)).
Proof.
  apply (estimate_integer_formula 14 (Build_charge_level 3696 54)
           (Build_charge_level 3733 58) 3700);
    [reflexivity | reflexivity | split; discriminate].
Defined.

(** X2: an input between two adjacent breakpoints is estimated between
    their two percents. *)
Theorem estimate_between_breakpoints (i : Z) (lo hi : charge_level) (v : Z) :
  lut_at charge_level_lut i = Some lo ->
  lut_at charge_level_lut (i + 1) = Some hi ->
  mv lo <= v <= mv hi ->
  exists p, lithium_ion_mv_to_pct v = Some p /\ pct lo <= p <= pct hi.
Proof.
  intros Hlo Hhi Hv. exists (pct_at v). split; [apply pct_at_defined |].
  rewrite (bracket_formula i lo hi v Hlo Hhi Hv).
  pose proof (lut_adjacent_pct i lo hi Hlo Hhi) as Hp.
  pose proof (lut_adjacent_ascending i lo hi Hlo Hhi) as Hm.
  assert (H0 : 0 <= (pct hi - pct lo) * (v - mv lo) / (mv hi - mv lo))
    by (apply Z.div_pos; nia).
  assert (H1 : (pct hi - pct lo) * (v - mv lo) / (mv hi - mv lo) <= pct hi - pct lo)
    by (apply Z.div_le_upper_bound; nia).
  lia.
Qed.

Lemma estimate_between_breakpoints_witness :
  exists p, lithium_ion_mv_to_pct 3700 = Some p /\ 54 <= p <= 58.
Proof.
  apply (estimate_between_breakpoints 14 (Build_charge_level 3696 54)
           (Build_charge_level 3733 58) 3700);
    [reflexivity | reflexivity | split; discriminate].
Defined.

(** X3: 100 percent is reported exactly from 4177 mV on: below the last
    breakpoint the estimate never exceeds 99. *)
Theorem estimate_full_iff (v : Z) :
  lithium_ion_mv_to_pct v = Some 100 <-> 4177 <= v.
Proof.
  split; [| apply estimate_above].
  intros H. destruct (Z.le_gt_cases 4177 v) as [Hhi | Hhi]; [exact Hhi |].
  destruct (Z.lt_ge_cases v 3434) as [Hlo | Hlo].
  - rewrite (estimate_below v Hlo) in H. discriminate.
  - destruct (ends_ok_range v (conj Hlo Hhi)) as [Hr _].
    rewrite pct_at_defined in H. injection H as H. lia.
Qed.

(** X4: 0 percent is reported exactly up to 3439 mV: the first five
    millivolts above the first breakpoint still read as empty. *)
Theorem estimate_empty_iff (v : Z) :
  lithium_ion_mv_to_pct v = Some 0 <-> v <= 3439.
Proof.
  destruct (Z.lt_ge_cases v 3434) as [Hlo | Hlo].
  - rewrite (estimate_below v Hlo). split; [lia | reflexivity].
  - destruct (Z.le_gt_cases 4177 v) as [Hhi | Hhi].
    + rewrite (estimate_above v Hhi). split; [discriminate | lia].
    + destruct (ends_ok_range v (conj Hlo Hhi)) as [_ Hz].
      rewrite pct_at_defined. rewrite <- Hz.
      split; [intros H; now injection H | intros ->; reflexivity].
Qed.

(** X5: one millivolt more never adds more than one percent. *)
Theorem estimate_step_at_most_one (v : Z) :
  exists a b, lithium_ion_mv_to_pct v = Some a
              /\ lithium_ion_mv_to_pct (v + 1) = Some b
              /\ a <= b <= a + 1.
Proof.
  destruct (Z.lt_ge_cases v 3433) as [Hlo | Hlo].
  - exists 0, 0. rewrite !estimate_below by lia. repeat split; lia.
  - destruct (Z.eq_dec v 3433) as [-> | Hne].
    + exists 0, 0. repeat split; try (vm_compute; reflexivity); lia.
    + destruct (Z.le_gt_cases 4177 v) as [Hhi | Hhi].
      * exists 100, 100. rewrite !estimate_above by lia. repeat split; lia.
      * destruct (estimate_step v) as (a & b & Ha & Hb & _ & Hab & _); [lia |].
        exists a, b. repeat split; try assumption.
        pose proof all_steps_small as H. rewrite forallb_forall in H.
        assert (Hv : 3434 <= v < 4177) by lia.
        specialize (H v (lut_inputs_In v Hv)). unfold step_small, pct_at in H.
        rewrite Ha, Hb in H. now apply Z.leb_le.
Qed.

(** X6: no percent is skipped: every integer from 0 to 100 is the estimate
    of some voltage between the first and the last breakpoint. *)
Theorem estimate_onto (p : Z) :
  0 <= p <= 100 ->
  exists v, 3434 <= v <= 4177 /\ lithium_ion_mv_to_pct v = Some p.
Proof.
  intros Hp. pose proof all_pct_reached as H. rewrite forallb_forall in H.
  specialize (H (Z.to_nat p)). unfold pct_reached in H.
  rewrite Z2Nat.id in H by lia.
  assert (Hin : In (Z.to_nat p) (seq 0 101)) by (apply in_seq; lia).
  apply H, existsb_exists in Hin. destruct Hin as (v & Hv & E).
  exists v. split.
  - apply in_app_or in Hv. destruct Hv as [Hv | [<- | []]]; [| lia].
    unfold lut_inputs in Hv. apply in_map_iff in Hv.
    destruct Hv as (n & <- & Hn). apply in_seq in Hn. lia.
  - rewrite pct_at_defined. f_equal. now apply Z.eqb_eq.
Qed.

Lemma estimate_onto_witness :
  exists v, 3434 <= v <= 4177 /\ lithium_ion_mv_to_pct v = Some 37.
Proof.
  apply (estimate_onto 37). split; discriminate.
Defined.

(** * Further properties of the sampling cycle *)

Section CyclePaths.

Variable ENOTSUP : Z.
Variable adc_raw_to_millivolts : Z -> Z.
Variable hw : hardware.
Variable drv_cfg : bvd_config.

Local Abbreviation fetch := (bvd_sample_fetch ENOTSUP adc_raw_to_millivolts hw drv_cfg).
Local Abbreviation pin := (power_gpios_pin drv_cfg).
Local Abbreviation reaches := (reaches_read hw drv_cfg).
Local Abbreviation commands := (cycle_commands hw drv_cfg).

(** The sample as the branch [rc == 0] computes it from the buffer. *)
Local Abbreviation raw_of d := (CInt.to_uint16 (adc_read_sample hw (adc_raw d))).
Local Abbreviation scaled_of d :=
  (CInt.to_uint64 (CInt.to_uint64 (adc_raw_to_millivolts (raw_of d)) * full_ohm drv_cfg)
   / output_ohm drv_cfg).
Local Abbreviation millivolts_of d := (CInt.to_uint16 (scaled_of d)).

Lemma reaches_read_true (chan : sensor_channel) (d : bvd_data) :
  reaches chan d = true <->
  chan_supported chan = true /\ (gpio d = true -> gpio_pin_set_rc hw pin 1 = 0).
Proof using hw drv_cfg.
  clear ENOTSUP adc_raw_to_millivolts.
  unfold reaches_read, chan_supported.
  destruct chan; destruct (gpio d);
    try destruct (Z.eqb_spec (gpio_pin_set_rc hw pin 1) 0);
    intuition (try discriminate; try congruence).
Qed.

(** A cycle that ends before the read. *)
Lemma fetch_early_exit (chan : sensor_channel) (d : bvd_data) (tr : list event) :
  reaches chan d = false ->
  fetch chan (Build_world d tr)
  = Some (if chan_supported chan then gpio_pin_set_rc hw pin 1 else - ENOTSUP,
          Build_world d (tr ++ commands chan d)).
Proof.
  unfold reaches_read, cycle_commands, bvd_sample_fetch, chan_supported.
  destruct chan; cbn [negb]; intros H;
    try (unfold drv_ret; rewrite app_nil_r; reflexivity);
    unfold drv_bind at 1; unfold drv_get at 1; cbn [drv_data];
    (destruct (gpio d); [| discriminate]);
    unfold drv_bind at 1; unfold gpio_pin_set at 1; cbn [drv_data trace];
    rewrite H; reflexivity.
Qed.

(** A cycle that gets to the read, with the trace at that point. *)
Lemma fetch_to_read (chan : sensor_channel) (d : bvd_data) (tr : list event) :
  reaches chan d = true ->
  fetch chan (Build_world d tr)
  = read_and_release adc_raw_to_millivolts hw drv_cfg
      (Build_world d (if gpio d then tr ++ [GpioPinSet pin 1] else tr)).
Proof.
  intros H. apply reaches_read_true in H. destruct H as [Hc Hen].
  now apply fetch_reaches_read.
Qed.

Lemma commands_when_reached (chan : sensor_channel) (d : bvd_data) :
  reaches chan d = true ->
  commands chan d
  = if gpio d then [GpioPinSet pin 1; AdcRead; GpioPinSet pin 0] else [AdcRead].
Proof.
  unfold reaches_read, cycle_commands.
  destruct chan; try discriminate; destruct (gpio d); intros H;
    try rewrite H; reflexivity.
Qed.

(** Every way a cycle can end, in one statement: it ends early, or the
    read fails, or the read succeeds and the sample is stored, or the read
    succeeds and the divisor is zero. *)
Lemma fetch_cases (chan : sensor_channel) (d : bvd_data) (tr : list event) :
  let rc_off := gpio_pin_set_rc hw pin 0 in
  (reaches chan d = false
   /\ fetch chan (Build_world d tr)
      = Some (if chan_supported chan then gpio_pin_set_rc hw pin 1 else - ENOTSUP,
              Build_world d (tr ++ commands chan d)))
  \/ (reaches chan d = true /\ adc_read_rc hw <> 0
      /\ fetch chan (Build_world d tr)
         = Some (if gpio d && negb (rc_off =? 0) then rc_off else adc_read_rc hw,
                 Build_world (Build_bvd_data (gpio d) false (raw_of d) (voltage d)
                                (state_of_charge d))
                   (tr ++ commands chan d)))
  \/ (reaches chan d = true /\ adc_read_rc hw = 0 /\ output_ohm drv_cfg <> 0
      /\ fetch chan (Build_world d tr)
         = Some (if gpio d && negb (rc_off =? 0) then rc_off else 0,
                 Build_world (Build_bvd_data (gpio d) false (raw_of d) (millivolts_of d)
                                (pct_at (CInt.to_int16 (millivolts_of d))))
                   (tr ++ commands chan d)))
  \/ (reaches chan d = true /\ adc_read_rc hw = 0 /\ output_ohm drv_cfg = 0
      /\ fetch chan (Build_world d tr) = None).
Proof.
  intros rc_off. destruct (reaches chan d) eqn:R.
  - right. rewrite (fetch_to_read chan d tr R), (commands_when_reached chan d R).
    destruct (Z.eq_dec (adc_read_rc hw) 0) as [Hrc | Hrc].
    + right. destruct (Z.eq_dec (output_ohm drv_cfg) 0) as [Hout | Hout].
      * right. repeat split; try assumption.
        now apply read_and_release_undefined.
      * left. repeat split; try assumption.
        destruct (read_and_release_ok adc_raw_to_millivolts hw drv_cfg d
                    (if gpio d then tr ++ [GpioPinSet pin 1] else tr) Hrc Hout)
          as (p & Hp & _ & Hrun).
        cbv zeta in Hrun. rewrite Hrun.
        rewrite pct_at_defined in Hp. injection Hp as <-.
        subst rc_off. destruct (gpio d); cbn [andb]; [| reflexivity].
        rewrite <- !app_assoc. cbn [app].
        destruct (gpio_pin_set_rc hw pin 0 =? 0); reflexivity.
    + left. repeat split; try assumption.
      rewrite (read_and_release_failed adc_raw_to_millivolts hw drv_cfg d _ Hrc).
      subst rc_off. destruct d as [g c r v s]. destruct g; cbn [andb gpio]; [| reflexivity].
      rewrite <- !app_assoc. cbn [app].
      destruct (gpio_pin_set_rc hw pin 0 =? 0); reflexivity.
  - left. split; [reflexivity |]. now apply fetch_early_exit.
Qed.

Ltac by_fetch_cases chan d tr R Hrc Hout E :=
  let H := fresh "H" in
  pose proof (fetch_cases chan d tr) as H; cbv zeta in H;
  destruct H as [(R & E) | [(R & Hrc & E) | [(R & Hrc & Hout & E) | (R & Hrc & Hout & E)]]].

(** X7: a cycle that ends before the read, because the channel is not
    supported or because the power gate could not be enabled, leaves all of
    [bvd_data] as it was, reads nothing and does not command the gate off:
    it returns [-ENOTSUP] with no device touched, or the code of the failed
    enable after that single command. *)
Theorem early_exit_leaves_data
    (chan : sensor_channel) (d : bvd_data) (tr : list event) :
  chan_supported chan = false
  \/ (gpio d = true /\ gpio_pin_set_rc hw pin 1 <> 0) ->
  fetch chan (Build_world d tr)
  = if chan_supported chan
    then Some (gpio_pin_set_rc hw pin 1, Build_world d (tr ++ [GpioPinSet pin 1]))
    else Some (- ENOTSUP, Build_world d tr).
Proof.
  intros H.
  assert (R : reaches chan d = false).
  { destruct (reaches chan d) eqn:R; [| reflexivity].
    apply reaches_read_true in R. destruct R as [Hc Hen].
    destruct H as [H | [G H]]; [congruence | now specialize (Hen G)]. }
  rewrite (fetch_early_exit chan d tr R).
  unfold reaches_read, cycle_commands, chan_supported in *.
  destruct chan; try (rewrite app_nil_r; reflexivity);
    destruct (gpio d); try discriminate; rewrite R; reflexivity.
Qed.

(** X8: the commands of a cycle are fixed by its path: none for an
    unsupported channel; with a gate, enable alone when enabling fails and
    enable, read, disable otherwise; without a gate, the read alone. So the
    converter is never read behind a gate that failed to open, and a board
    without a gate never sees a GPIO command. *)
Theorem cycle_command_sequence
    (chan : sensor_channel) (d : bvd_data) (tr : list event) (rc : Z) (w' : world) :
  fetch chan (Build_world d tr) = Some (rc, w') ->
  trace w' = tr ++ commands chan d.
Proof.
  intros Hrun. by_fetch_cases chan d tr R Hrc Hout E;
    rewrite E in Hrun; try discriminate; injection Hrun as _ <-; reflexivity.
Qed.

(** X9: the only undefined behaviour of a cycle is the division by a zero
    [output_ohm], and it is met exactly when the read is reached and
    succeeds. *)
Theorem cycle_undefined_iff
    (chan : sensor_channel) (d : bvd_data) (tr : list event) :
  fetch chan (Build_world d tr) = None
  <-> reaches chan d = true /\ adc_read_rc hw = 0 /\ output_ohm drv_cfg = 0.
Proof.
  by_fetch_cases chan d tr R Hrc Hout E; rewrite E;
    (split; [intros H; try discriminate | intros (H1 & H2 & H3)]);
    try congruence; try contradiction; auto.
Qed.

(** X10: a cycle returns 0 exactly when the channel is supported, the read
    succeeded and, where a gate is present, both of its commands succeeded. *)
Theorem cycle_returns_zero_iff
    (chan : sensor_channel) (d : bvd_data) (tr : list event) (rc : Z) (w' : world) :
  ENOTSUP <> 0 ->
  fetch chan (Build_world d tr) = Some (rc, w') ->
  (rc = 0 <->
   chan_supported chan = true
   /\ adc_read_rc hw = 0
   /\ (gpio d = true ->
       gpio_pin_set_rc hw pin 1 = 0 /\ gpio_pin_set_rc hw pin 0 = 0)).
Proof.
  intros Hnot Hrun. by_fetch_cases chan d tr R Hrc Hout E;
    rewrite E in Hrun; try discriminate; injection Hrun as <- _.
  - assert (Hn : ~ (chan_supported chan = true
                    /\ (gpio d = true -> gpio_pin_set_rc hw pin 1 = 0))).
    { intros H. apply reaches_read_true in H. congruence. }
    destruct (chan_supported chan) eqn:C.
    + split; [intros H0 | intros (_ & _ & H)].
      * exfalso. apply Hn. split; [reflexivity | intros _; exact H0].
      * exfalso. apply Hn. split; [reflexivity |]. intros G. now apply H.
    + split; [lia | intros (H & _); discriminate].
  - apply reaches_read_true in R. destruct R as [C Hen].
    destruct (gpio d); cbn [andb];
      [destruct (Z.eqb_spec (gpio_pin_set_rc hw pin 0) 0); cbn [negb] |];
      split; try tauto; intros (_ & H & _); contradiction.
  - apply reaches_read_true in R. destruct R as [C Hen].
    destruct (gpio d); cbn [andb];
      [destruct (Z.eqb_spec (gpio_pin_set_rc hw pin 0) 0); cbn [negb] |];
      split; try tauto; try (intros _; repeat split; auto; discriminate).
Qed.

(** X11: the stored pair stays consistent: if the stored voltage is a
    16-bit value and the stored percent is the estimate of it, the same
    holds after any cycle that returns, whatever the devices answer. *)
Theorem sample_consistent_preserved
    (chan : sensor_channel) (d : bvd_data) (tr : list event) (rc : Z) (w' : world) :
  sample_consistent d ->
  fetch chan (Build_world d tr) = Some (rc, w') ->
  sample_consistent (drv_data w').
Proof.
  intros Hd Hrun. by_fetch_cases chan d tr R Hrc Hout E;
    rewrite E in Hrun; try discriminate; injection Hrun as _ <-;
    cbn [drv_data]; try exact Hd.
  unfold sample_consistent. cbn [voltage state_of_charge].
  split; [apply Z.mod_pos_bound; reflexivity | apply pct_at_defined].
Qed.

(** X12: an error return does not mean a stale sample: when the read
    succeeds and only switching the gate off fails, the cycle returns that
    failure's code and has stored the new voltage and its percent. *)
Theorem release_failure_keeps_new_sample
    (chan : sensor_channel) (d : bvd_data) (tr : list event) :
  chan_supported chan = true ->
  gpio d = true ->
  gpio_pin_set_rc hw pin 1 = 0 ->
  adc_read_rc hw = 0 ->
  output_ohm drv_cfg <> 0 ->
  gpio_pin_set_rc hw pin 0 <> 0 ->
  exists w',
    fetch chan (Build_world d tr) = Some (gpio_pin_set_rc hw pin 0, w')
    /\ voltage (drv_data w') = millivolts_of d
    /\ lithium_ion_mv_to_pct (CInt.to_int16 (millivolts_of d))
       = Some (state_of_charge (drv_data w')).
Proof.
  intros C G Hen Hok Hdiv Hoff.
  assert (R' : reaches chan d = true)
    by (apply reaches_read_true; split; [exact C | intros _; exact Hen]).
  by_fetch_cases chan d tr R Hrc Hout E; try congruence.
  rewrite E, G. cbn [andb].
  destruct (Z.eqb_spec (gpio_pin_set_rc hw pin 0) 0); [contradiction |].
  cbn [negb]. eexists. split; [reflexivity |]. cbn [drv_data voltage state_of_charge].
  split; [reflexivity | apply pct_at_defined].
Qed.

(** X13: the 16-bit millivolts are handed to an [int16_t] parameter: a
    successful cycle whose scaled voltage is stored as 32768 mV or more
    stores 0 percent beside it, not 100. *)
Theorem high_reading_reports_empty
    (chan : sensor_channel) (d : bvd_data) (tr : list event) :
  chan_supported chan = true ->
  (gpio d = true -> gpio_pin_set_rc hw pin 1 = 0) ->
  adc_read_rc hw = 0 ->
  output_ohm drv_cfg <> 0 ->
  32768 <= millivolts_of d ->
  exists rc w',
    fetch chan (Build_world d tr) = Some (rc, w')
    /\ voltage (drv_data w') = millivolts_of d
    /\ state_of_charge (drv_data w') = 0.
Proof.
  intros C Hen Hok Hdiv Hhigh.
  assert (R' : reaches chan d = true) by (apply reaches_read_true; now split).
  by_fetch_cases chan d tr R Hrc Hout E; try congruence.
  rewrite E. eexists; eexists. split; [reflexivity |].
  cbn [drv_data voltage state_of_charge]. split; [reflexivity |].
  assert (Hm : 0 <= millivolts_of d < 2 ^ 16)
    by (apply Z.mod_pos_bound; reflexivity).
  assert (Hneg : CInt.to_int16 (millivolts_of d) < 3434).
  { unfold CInt.to_int16 at 1.
    replace ((millivolts_of d + 2 ^ 15) mod 2 ^ 16)
      with (millivolts_of d + 2 ^ 15 - 2 ^ 16).
    - lia.
    - apply Z.mod_unique with 1; lia. }
  unfold pct_at. now rewrite (estimate_below _ Hneg).
Qed.

(** X14: a cycle never requests calibration again: [as.calibrate] is
    cleared by every cycle that reaches the read and is otherwise left as
    it was, and the gate pointer is never changed. *)
Theorem calibrate_after_cycle
    (chan : sensor_channel) (d : bvd_data) (tr : list event) (rc : Z) (w' : world) :
  fetch chan (Build_world d tr) = Some (rc, w') ->
  gpio (drv_data w') = gpio d
  /\ as_calibrate (drv_data w') = as_calibrate d && negb (reaches chan d).
Proof.
  intros Hrun. by_fetch_cases chan d tr R Hrc Hout E;
    rewrite E in Hrun; try discriminate; injection Hrun as _ <-;
    rewrite R; cbn [drv_data gpio as_calibrate negb];
    rewrite ?andb_true_r, ?andb_false_r; split; reflexivity.
Qed.

End CyclePaths.

Lemma early_exit_leaves_data_witness :
  bvd_sample_fetch 134 example_raw_to_millivolts hw_gate_stuck example_cfg
    SENSOR_CHAN_ALL (Build_world example_data [])
  = Some (-5, Build_world example_data [GpioPinSet 4 1]).
Proof.
  apply (early_exit_leaves_data 134 example_raw_to_millivolts hw_gate_stuck
           example_cfg SENSOR_CHAN_ALL example_data []).
  right. split; [reflexivity | discriminate].
Defined.

Lemma cycle_command_sequence_witness :
  trace (Build_world (Build_bvd_data true false 3796 3900 77)
           [GpioPinSet 4 1; AdcRead; GpioPinSet 4 0])
  = [] ++ cycle_commands hw_release_fails example_cfg SENSOR_CHAN_ALL example_data.
Proof.
  apply (cycle_command_sequence 134 example_raw_to_millivolts hw_release_fails
           example_cfg SENSOR_CHAN_ALL example_data [] (-22)).
  vm_compute. reflexivity.
Defined.

Lemma cycle_returns_zero_iff_witness :
  0 = 0 <->
  chan_supported SENSOR_CHAN_ALL = true
  /\ adc_read_rc hw_overrange = 0
  /\ (gpio example_data = true ->
      gpio_pin_set_rc hw_overrange (power_gpios_pin example_cfg) 1 = 0
      /\ gpio_pin_set_rc hw_overrange (power_gpios_pin example_cfg) 0 = 0).
Proof.
  apply (cycle_returns_zero_iff 134 example_raw_to_millivolts hw_overrange
           example_cfg SENSOR_CHAN_ALL example_data [] 0
           (Build_world (Build_bvd_data true false 65535 1806 0)
              [GpioPinSet 4 1; AdcRead; GpioPinSet 4 0]));
    [discriminate | vm_compute; reflexivity].
Defined.

Lemma sample_consistent_preserved_witness :
  sample_consistent zero_data
  /\ sample_consistent (Build_bvd_data false false 3796 3900 77).
Proof.
  assert (H : sample_consistent zero_data).
  { split; [split; [discriminate | reflexivity] | vm_compute; reflexivity]. }
  split; [exact H |].
  apply (sample_consistent_preserved 134 example_raw_to_millivolts hw_release_fails
           example_cfg SENSOR_CHAN_GAUGE_VOLTAGE zero_data [] 0
           (Build_world (Build_bvd_data false false 3796 3900 77) [AdcRead]) H).
  vm_compute. reflexivity.
Defined.

Lemma release_failure_keeps_new_sample_witness :
  exists w',
    bvd_sample_fetch 134 example_raw_to_millivolts hw_release_fails example_cfg
      SENSOR_CHAN_ALL (Build_world example_data []) = Some (-22, w')
    /\ voltage (drv_data w') = 3900
    /\ lithium_ion_mv_to_pct (CInt.to_int16 3900) = Some (state_of_charge (drv_data w')).
Proof.
  apply (release_failure_keeps_new_sample 134 example_raw_to_millivolts
           hw_release_fails example_cfg SENSOR_CHAN_ALL example_data []);
    try reflexivity; discriminate.
Defined.

Lemma high_reading_reports_empty_witness :
  exists rc w',
    bvd_sample_fetch 134 example_raw_to_millivolts hw_high example_cfg
      SENSOR_CHAN_ALL (Build_world example_data []) = Some (rc, w')
    /\ voltage (drv_data w') = 42090
    /\ state_of_charge (drv_data w') = 0.
Proof.
  apply (high_reading_reports_empty 134 example_raw_to_millivolts hw_high
           example_cfg SENSOR_CHAN_ALL example_data []);
    try reflexivity; discriminate.
Defined.

Lemma calibrate_after_cycle_witness :
  gpio (Build_bvd_data true false 40960 42090 0) = gpio example_data
  /\ as_calibrate (Build_bvd_data true false 40960 42090 0)
     = as_calibrate example_data
       && negb (reaches_read hw_high example_cfg SENSOR_CHAN_ALL example_data).
Proof.
  apply (calibrate_after_cycle 134 example_raw_to_millivolts hw_high example_cfg
           SENSOR_CHAN_ALL example_data [] 0
           (Build_world (Build_bvd_data true false 40960 42090 0)
              [GpioPinSet 4 1; AdcRead; GpioPinSet 4 0])).
  vm_compute. reflexivity.
Defined.

(** * Properties of reading a channel *)

Lemma channel_get_voltage_value (ENOTSUP : Z) (d : bvd_data) (val : sensor_value) :
  0 <= voltage d < 2 ^ 16 ->
  bvd_channel_get ENOTSUP d SENSOR_CHAN_GAUGE_VOLTAGE val
  = (0, Build_sensor_value (voltage d / 1000) (voltage d mod 1000 * 1000)).
Proof.
  intros Hv. unfold bvd_channel_get.
  rewrite Z.quot_div_nonneg, Z.rem_mod_nonneg by lia.
  pose proof (Z.mod_pos_bound (voltage d) 1000 eq_refl) as Hm.
  unfold CInt32.to_int32, CInt32.to_uint32.
  rewrite (Z.mod_small (voltage d mod 1000 * 1000)) by lia.
  rewrite Z.mod_small by lia.
  do 2 f_equal. lia.
Qed.

(** X15: the voltage channel encodes the stored millivolts exactly: the
    integer part and the millionths add up to the stored voltage in
    microvolts, the millionths are a whole number of millivolts below one
    volt, and the millivolts are recovered as [val1 * 1000 + val2 / 1000]. *)
Theorem channel_get_voltage_microvolts
    (ENOTSUP : Z) (d : bvd_data) (val : sensor_value) :
  0 <= voltage d < 2 ^ 16 ->
  exists out,
    bvd_channel_get ENOTSUP d SENSOR_CHAN_GAUGE_VOLTAGE val = (0, out)
    /\ val1 out * 1000000 + val2 out = voltage d * 1000
    /\ 0 <= val1 out <= 65
    /\ 0 <= val2 out < 1000000
    /\ val1 out * 1000 + val2 out / 1000 = voltage d.
Proof.
  intros Hv. eexists. split; [now apply channel_get_voltage_value |].
  cbn [val1 val2].
  pose proof (Z.mod_pos_bound (voltage d) 1000 eq_refl) as Hm.
  pose proof (Z.div_mod (voltage d) 1000 ltac:(discriminate)) as Hdm.
  assert (Hq : 0 <= voltage d / 1000 <= 65).
  { split; [apply Z.div_pos; lia |].
    apply Z.lt_succ_r, Z.div_lt_upper_bound; [reflexivity |].
    change (2 ^ 16) with 65536 in Hv. lia. }
  rewrite Z.div_mul by discriminate.
  repeat split; lia.
Qed.

Lemma channel_get_voltage_microvolts_witness :
  exists out,
    bvd_channel_get 134 example_data SENSOR_CHAN_GAUGE_VOLTAGE (Build_sensor_value 0 0)
    = (0, out)
    /\ val1 out * 1000000 + val2 out = 3900 * 1000
    /\ 0 <= val1 out <= 65
    /\ 0 <= val2 out < 1000000
    /\ val1 out * 1000 + val2 out / 1000 = 3900.
Proof.
  apply (channel_get_voltage_microvolts 134 example_data (Build_sensor_value 0 0)).
  split; [discriminate | reflexivity].
Defined.

(** X16: [bvd_channel_get] serves fewer channels than [bvd_sample_fetch]
    accepts: a channel it serves can always be fetched, but
    [SENSOR_CHAN_ALL], which a fetch accepts, is refused; every refusal
    returns [-ENOTSUP] and leaves [*val] untouched. *)
Theorem channel_get_accepts_fewer
    (ENOTSUP : Z) (d : bvd_data) (chan : sensor_channel) (val : sensor_value) :
  ENOTSUP <> 0 ->
  (fst (bvd_channel_get ENOTSUP d chan val) = 0 <->
   chan = SENSOR_CHAN_GAUGE_VOLTAGE \/ chan = SENSOR_CHAN_GAUGE_STATE_OF_CHARGE)
  /\ (fst (bvd_channel_get ENOTSUP d chan val) = 0 -> chan_supported chan = true)
  /\ (fst (bvd_channel_get ENOTSUP d chan val) <> 0 ->
      bvd_channel_get ENOTSUP d chan val = (- ENOTSUP, val))
  /\ chan_supported SENSOR_CHAN_ALL = true
  /\ bvd_channel_get ENOTSUP d SENSOR_CHAN_ALL val = (- ENOTSUP, val).
Proof.
  intros Hnot. destruct chan; cbn [bvd_channel_get fst chan_supported];
    repeat split; try reflexivity; try tauto; try lia;
    try (intros [H | H]; discriminate); try (intros H; now contradiction H).
Qed.

Lemma channel_get_accepts_fewer_witness :
  bvd_channel_get 134 example_data SENSOR_CHAN_ALL (Build_sensor_value 7 9)
  = (-134, Build_sensor_value 7 9).
Proof.
  apply (channel_get_accepts_fewer 134 example_data SENSOR_CHAN_ALL
           (Build_sensor_value 7 9)).
  discriminate.
Defined.

(** X17: fetch, then get: after a cycle whose read succeeded, the
    state-of-charge channel reads a whole percent between 0 and 100 and the
    voltage channel reads the 16-bit voltage that this percent is the
    estimate of. *)
Theorem fetch_then_get
    (ENOTSUP : Z) (adc_raw_to_millivolts : Z -> Z) (hw : hardware)
    (drv_cfg : bvd_config) (chan : sensor_channel) (d : bvd_data)
    (tr : list event) (val : sensor_value) :
  chan_supported chan = true ->
  (gpio d = true -> gpio_pin_set_rc hw (power_gpios_pin drv_cfg) 1 = 0) ->
  adc_read_rc hw = 0 ->
  output_ohm drv_cfg <> 0 ->
  exists rc w' millivolts percent,
    bvd_sample_fetch ENOTSUP adc_raw_to_millivolts hw drv_cfg chan (Build_world d tr)
    = Some (rc, w')
    /\ 0 <= millivolts < 2 ^ 16
    /\ 0 <= percent <= 100
    /\ lithium_ion_mv_to_pct (CInt.to_int16 millivolts) = Some percent
    /\ bvd_channel_get ENOTSUP (drv_data w') SENSOR_CHAN_GAUGE_VOLTAGE val
       = (0, Build_sensor_value (millivolts / 1000) (millivolts mod 1000 * 1000))
    /\ bvd_channel_get ENOTSUP (drv_data w') SENSOR_CHAN_GAUGE_STATE_OF_CHARGE val
       = (0, Build_sensor_value percent 0).
Proof.
  intros C Hen Hok Hdiv.
  assert (R' : reaches_read hw drv_cfg chan d = true)
    by (apply (proj2 (reaches_read_true hw drv_cfg chan d)); split; assumption).
  pose proof (fetch_cases ENOTSUP adc_raw_to_millivolts hw drv_cfg chan d tr) as H.
  cbv zeta in H.
  destruct H as [(R & E) | [(R & Hrc & E) | [(R & Hrc & Hout & E) | (R & Hrc & Hout & E)]]];
    try congruence.
  rewrite E. eexists; eexists; eexists; eexists. split; [reflexivity |].
  cbn [drv_data].
  match goal with |- 0 <= ?m < _ /\ _ => assert (Hm : 0 <= m < 2 ^ 16)
    by (apply Z.mod_pos_bound; reflexivity) end.
  split; [exact Hm |].
  split; [| split; [apply pct_at_defined | split]].
  - match goal with |- 0 <= pct_at ?v <= 100 =>
      destruct (estimate_defined v) as (p & Hp & Hr);
      unfold pct_at; rewrite Hp; exact Hr end.
  - rewrite channel_get_voltage_value; [reflexivity | exact Hm].
  - reflexivity.
Qed.

Lemma fetch_then_get_witness :
  exists rc w' millivolts percent,
    bvd_sample_fetch 134 example_raw_to_millivolts hw_release_fails example_cfg
      SENSOR_CHAN_ALL (Build_world example_data []) = Some (rc, w')
    /\ 0 <= millivolts < 2 ^ 16
    /\ 0 <= percent <= 100
    /\ lithium_ion_mv_to_pct (CInt.to_int16 millivolts) = Some percent
    /\ bvd_channel_get 134 (drv_data w') SENSOR_CHAN_GAUGE_VOLTAGE (Build_sensor_value 0 0)
       = (0, Build_sensor_value (millivolts / 1000) (millivolts mod 1000 * 1000))
    /\ bvd_channel_get 134 (drv_data w') SENSOR_CHAN_GAUGE_STATE_OF_CHARGE
         (Build_sensor_value 0 0)
       = (0, Build_sensor_value percent 0).
Proof.
  apply (fetch_then_get 134 example_raw_to_millivolts hw_release_fails example_cfg
           SENSOR_CHAN_ALL example_data [] (Build_sensor_value 0 0));
    try reflexivity; discriminate.
Defined.

(** * Properties of initialisation *)

Section InitFacts.

Variable ENODEV : Z.
Variable GPIO_OUTPUT_INACTIVE : Z.
Variable adc_channel_cfg : Type.
Variable saadc_channel_cfg : Z -> adc_channel_cfg.
Variable k : kernel adc_channel_cfg.
Variable drv_cfg : bvd_config.
Variable wiring : bvd_wiring.

Local Abbreviation init :=
  (bvd_init ENODEV GPIO_OUTPUT_INACTIVE saadc_channel_cfg k drv_cfg wiring).
Local Abbreviation pin := (power_gpios_pin drv_cfg).
Local Abbreviation gate_flags :=
  (Z.lor GPIO_OUTPUT_INACTIVE (power_gpios_flags wiring)).
Local Abbreviation channel_cfg := (saadc_channel_cfg (io_channel_channel wiring)).

(** Whether a step before the setup of the ADC channel fails. *)
Local Abbreviation blocked :=
  (device_get_binding k (io_channel_label wiring) = false
   \/ exists label,
        power_gpios_label wiring = Some label
        /\ (device_get_binding k label = false
            \/ gpio_pin_configure_rc k pin gate_flags <> 0)).

(** Every bit of the first operand is in the disjunction. *)
Lemma lor_keeps_bits (a b : Z) : Z.land (Z.lor a b) a = a.
Proof.
  apply Z.bits_inj'. intros n Hn.
  rewrite Z.land_spec, Z.lor_spec.
  destruct (Z.testbit a n), (Z.testbit b n); reflexivity.
Qed.

(** Initialisation that gets to the setup of the ADC channel. *)
Lemma init_reaches_setup (d : bvd_data) (s : bvd_setup adc_channel_cfg) :
  ~ blocked ->
  init d s
  = (adc_channel_setup_rc k channel_cfg,
     Build_init_state
       (Build_bvd_data
          (match power_gpios_label wiring with Some _ => true | None => gpio d end)
          true (adc_raw d) (voltage d) (state_of_charge d))
       (Build_bvd_setup true (Some channel_cfg)
          (Build_adc_sequence 1 2 4 12))
       (DeviceGetBinding (io_channel_label wiring)
        :: match power_gpios_label wiring with
           | Some label => [DeviceGetBinding label;
                            GpioPinConfigure pin gate_flags]
           | None => []
           end
        ++ [AdcChannelSetup channel_cfg])).
Proof.
  intros Hfree. unfold bvd_init, init_adc_channel.
  destruct (device_get_binding k (io_channel_label wiring)) eqn:A;
    [| exfalso; apply Hfree; now left].
  cbn [negb]. destruct (power_gpios_label wiring) as [label |] eqn:L.
  - destruct (device_get_binding k label) eqn:G;
      [| exfalso; apply Hfree; right; exists label; split; [reflexivity | now left]].
    cbn [negb].
    destruct (Z.eqb_spec (gpio_pin_configure_rc k pin gate_flags) 0) as [E | E];
      [| exfalso; apply Hfree; right; exists label; split; [reflexivity | now right]].
    cbn [negb]. unfold set_as_calibrate.
    cbn [gpio as_calibrate adc_raw voltage state_of_charge adc acc as_
         as_channels as_buffer_size as_oversampling app].
    reflexivity.
  - unfold set_as_calibrate.
    cbn [gpio as_calibrate adc_raw voltage state_of_charge adc acc as_
         as_channels as_buffer_size as_oversampling app].
    reflexivity.
Qed.

(** Initialisation that stops before the setup of the ADC channel. *)
Lemma init_blocked (d : bvd_data) (s : bvd_setup adc_channel_cfg) :
  blocked ->
  exists rc g tr,
    init d s
    = (rc, Build_init_state
             (Build_bvd_data g (as_calibrate d) (adc_raw d) (voltage d)
                (state_of_charge d))
             (Build_bvd_setup
                (device_get_binding k (io_channel_label wiring)) (acc s) (as_ s))
             tr)
    /\ (rc = - ENODEV \/ (rc <> 0 /\ rc = gpio_pin_configure_rc k pin gate_flags))
    /\ (forall cfg, ~ In (AdcChannelSetup cfg) tr)
    /\ (device_get_binding k (io_channel_label wiring) = false ->
        g = gpio d /\ tr = [DeviceGetBinding (io_channel_label wiring)]).
Proof.
  intros Hb. unfold bvd_init.
  destruct (device_get_binding k (io_channel_label wiring)) eqn:A; cbn [negb].
  - destruct Hb as [Hb | (label & L & Hb)]; [discriminate |].
    rewrite L.
    destruct (device_get_binding k label) eqn:G; cbn [negb].
    + destruct Hb as [Hb | Hb]; [discriminate |].
      destruct (Z.eqb_spec (gpio_pin_configure_rc k pin gate_flags) 0) as [E | E];
        [contradiction |].
      cbn [negb]. eexists; eexists; eexists. split; [reflexivity |].
      split; [right; split; [exact E | reflexivity] |].
      split; [| discriminate].
      intros cfg [H | [H | [H | []]]]; discriminate.
    + eexists; eexists; eexists. split; [reflexivity |].
      split; [now left |]. split; [| discriminate].
      intros cfg [H | [H | []]]; discriminate.
  - exists (- ENODEV), (gpio d), [DeviceGetBinding (io_channel_label wiring)].
    split; [destruct d; reflexivity |].
    split; [now left |]. split; [| now split].
    intros cfg [H | []]; discriminate.
Qed.

Lemma blocked_dec : blocked \/ ~ blocked.
Proof.
  destruct (device_get_binding k (io_channel_label wiring)) eqn:A;
    [| left; now left].
  destruct (power_gpios_label wiring) as [label |] eqn:L.
  - destruct (device_get_binding k label) eqn:G.
    + destruct (Z.eq_dec (gpio_pin_configure_rc k pin gate_flags) 0) as [E | E].
      * right. intros [H | (l & Hl & [H | H])]; try discriminate;
          injection Hl as <-; congruence.
      * left. right. exists label. split; [reflexivity | now right].
    + left. right. exists label. split; [reflexivity | now left].
  - right. intros [H | (l & Hl & _)]; discriminate.
Qed.

(** X18: what a successful initialisation establishes: the converter is
    bound, the sequence asks for one channel, a 2-byte buffer, 4-fold
    oversampling, 12 bits and a calibration, the channel configuration is
    that of the configured analog input, the stored sample is untouched,
    and the kernel was asked, in this order, for the converter, then, if a
    gate is wired, for the gate and its configuration, then for the channel
    setup; with a gate wired the gate pointer is set. *)
Theorem init_success_state (d : bvd_data) (s : bvd_setup adc_channel_cfg)
    (st : init_state adc_channel_cfg) :
  ENODEV <> 0 ->
  init d s = (0, st) ->
  adc (init_setup st) = true
  /\ as_calibrate (init_data st) = true
  /\ as_ (init_setup st) = Build_adc_sequence 1 2 4 12
  /\ acc (init_setup st) = Some channel_cfg
  /\ adc_raw (init_data st) = adc_raw d
  /\ voltage (init_data st) = voltage d
  /\ state_of_charge (init_data st) = state_of_charge d
  /\ match power_gpios_label wiring with
     | Some label =>
         gpio (init_data st) = true
         /\ init_trace st
            = [DeviceGetBinding (io_channel_label wiring);
               DeviceGetBinding label;
               GpioPinConfigure pin gate_flags;
               AdcChannelSetup channel_cfg]
     | None =>
         gpio (init_data st) = gpio d
         /\ init_trace st
            = [DeviceGetBinding (io_channel_label wiring);
               AdcChannelSetup channel_cfg]
     end.
Proof.
  intros Hnot Hrun. destruct blocked_dec as [Hb | Hfree].
  - destruct (init_blocked d s Hb) as (rc & g & tr & E & Hrc & _).
    rewrite E in Hrun. injection Hrun as -> _.
    destruct Hrc as [Hrc | [Hrc _]]; [lia | contradiction].
  - rewrite (init_reaches_setup d s Hfree) in Hrun. injection Hrun as _ <-.
    cbn [init_data init_setup init_trace adc acc as_ gpio as_calibrate adc_raw
         voltage state_of_charge].
    destruct (power_gpios_label wiring); repeat split; reflexivity.
Qed.

(** X19: the gate is always configured as an inactive output: whatever
    flags the configuration adds, every [gpio_pin_configure] that
    initialisation issues is for the configured pin and carries all the
    bits of [GPIO_OUTPUT_INACTIVE]; it is issued at most once. *)
Theorem init_gate_inactive (d : bvd_data) (s : bvd_setup adc_channel_cfg)
    (p flags : Z) :
  In (GpioPinConfigure p flags) (init_trace (snd (init d s))) ->
  p = pin
  /\ Z.land flags GPIO_OUTPUT_INACTIVE = GPIO_OUTPUT_INACTIVE
  /\ List.length
       (filter (fun e => match e with GpioPinConfigure _ _ => true | _ => false end)
          (init_trace (snd (init d s)))) = 1%nat.
Proof.
  unfold bvd_init, init_adc_channel.
  destruct (device_get_binding k (io_channel_label wiring)); cbn [negb].
  - destruct (power_gpios_label wiring) as [label |].
    + destruct (device_get_binding k label); cbn [negb].
      * destruct (negb (gpio_pin_configure_rc k pin gate_flags =? 0));
          cbn [snd init_trace app In];
          intros H; repeat (destruct H as [H | H]; try discriminate);
          try contradiction; injection H as <- <-;
          repeat split; try reflexivity; apply lor_keeps_bits.
      * cbn [snd init_trace app In].
        intros H; repeat (destruct H as [H | H]; try discriminate); contradiction.
    + cbn [snd init_trace app In].
      intros H; repeat (destruct H as [H | H]; try discriminate); contradiction.
  - cbn [snd init_trace In]. intros [H | []]. discriminate.
Qed.

(** X20: when the converter is not found, or a gate is wired and it is not
    found or refuses its configuration, initialisation fails with a
    non-zero code ([-ENODEV] or the configuration's) before anything is
    set up: the ADC channel is never configured and the sequence,
    including its calibration request, stays as it was. With the converter
    missing the gate is not even looked up. *)
Theorem init_failure_sets_nothing_up (d : bvd_data) (s : bvd_setup adc_channel_cfg) :
  ENODEV <> 0 ->
  blocked ->
  fst (init d s) <> 0
  /\ (forall cfg, ~ In (AdcChannelSetup cfg) (init_trace (snd (init d s))))
  /\ as_calibrate (init_data (snd (init d s))) = as_calibrate d
  /\ as_ (init_setup (snd (init d s))) = as_ s
  /\ acc (init_setup (snd (init d s))) = acc s
  /\ (device_get_binding k (io_channel_label wiring) = false ->
      gpio (init_data (snd (init d s))) = gpio d
      /\ init_trace (snd (init d s))
         = [DeviceGetBinding (io_channel_label wiring)]).
Proof.
  intros Hnot Hb.
  destruct (init_blocked d s Hb) as (rc & g & tr & E & Hrc & Hno & Hadc).
  rewrite E. cbn [fst snd init_data init_setup init_trace as_calibrate as_ acc gpio].
  repeat split; try exact Hno; try (now apply Hadc).
  destruct Hrc as [-> | [Hrc _]]; [lia | exact Hrc].
Qed.

(** X21: initialisation, then a cycle: after a successful initialisation
    with a gate wired, the calibration request is pending, and a cycle on a
    supported channel whose gate switches on drives that same pin on, reads,
    drives it off, and leaves the calibration request cleared. *)
Theorem init_then_fetch
    (d : bvd_data) (s : bvd_setup adc_channel_cfg) (st : init_state adc_channel_cfg)
    (label : String.string)
    (ENOTSUP : Z) (adc_raw_to_millivolts : Z -> Z) (hw : hardware)
    (chan : sensor_channel) (tr : list event) (rc : Z) (w' : world) :
  ENODEV <> 0 ->
  power_gpios_label wiring = Some label ->
  init d s = (0, st) ->
  chan_supported chan = true ->
  gpio_pin_set_rc hw pin 1 = 0 ->
  bvd_sample_fetch ENOTSUP adc_raw_to_millivolts hw drv_cfg chan
    (Build_world (init_data st) tr) = Some (rc, w') ->
  as_calibrate (init_data st) = true
  /\ In (GpioPinConfigure pin gate_flags) (init_trace st)
  /\ as_calibrate (drv_data w') = false
  /\ trace w' = tr ++ [GpioPinSet pin 1; AdcRead; GpioPinSet pin 0].
Proof.
  intros Hnot L Hinit C Hen Hrun.
  destruct blocked_dec as [Hb | Hfree].
  - destruct (init_blocked d s Hb) as (rc0 & g & tr0 & E & Hrc & _).
    rewrite E in Hinit. injection Hinit as -> _.
    destruct Hrc as [Hrc | [Hrc _]]; [lia | contradiction].
  - rewrite (init_reaches_setup d s Hfree) in Hinit. injection Hinit as _ <-.
    rewrite L in *. cbn [init_data init_trace as_calibrate] in *.
    split; [reflexivity |]. split; [cbn; tauto |].
    set (d0 := Build_bvd_data true true (adc_raw d) (voltage d) (state_of_charge d)) in *.
    assert (R' : reaches_read hw drv_cfg chan d0 = true)
      by (apply (proj2 (reaches_read_true hw drv_cfg chan d0)); split;
          [exact C | intros _; exact Hen]).
    pose proof (commands_when_reached hw drv_cfg chan d0 R') as Hcmd.
    pose proof (fetch_cases ENOTSUP adc_raw_to_millivolts hw drv_cfg chan d0 tr) as H.
    cbv zeta in H.
    destruct H as [(R & E) | [(R & Hrc & E) | [(R & Hrc & Hout & E) | (R & Hrc & Hout & E)]]];
      try congruence;
      rewrite E in Hrun; injection Hrun as _ <-;
      cbn [drv_data trace as_calibrate]; rewrite Hcmd; split; reflexivity.
Qed.

End InitFacts.

Lemma init_success_state_witness :
  adc (init_setup example_state) = true
  /\ as_calibrate (init_data example_state) = true
  /\ as_ (init_setup example_state) = Build_adc_sequence 1 2 4 12
  /\ acc (init_setup example_state) = Some 3
  /\ adc_raw (init_data example_state) = 0
  /\ voltage (init_data example_state) = 0
  /\ state_of_charge (init_data example_state) = 0
  /\ gpio (init_data example_state) = true
  /\ init_trace example_state
     = [DeviceGetBinding BoardLabels.adc_label;
        DeviceGetBinding BoardLabels.gate_label;
        GpioPinConfigure 4 5632;
        AdcChannelSetup 3].
Proof.
  apply (init_success_state 19 5632 Z (fun channel => 1 + channel) example_kernel
           example_cfg example_wiring zero_data zero_setup
           example_state);
    [discriminate | reflexivity].
Defined.

Lemma init_gate_inactive_witness :
  4 = power_gpios_pin example_cfg
  /\ Z.land 5632 5632 = 5632
  /\ List.length
       (filter (fun e => match e with GpioPinConfigure _ _ => true | _ => false end)
          (init_trace example_state))
     = 1%nat.
Proof.
  apply (init_gate_inactive 19 5632 Z (fun channel => 1 + channel) example_kernel
           example_cfg example_wiring zero_data zero_setup 4 5632).
  right. right. left. reflexivity.
Defined.

Lemma init_failure_sets_nothing_up_witness :
  fst failed_init <> 0
  /\ (forall cfg, ~ In (AdcChannelSetup cfg) (init_trace (snd failed_init)))
  /\ as_calibrate (init_data (snd failed_init)) = false
  /\ as_ (init_setup (snd failed_init)) = Build_adc_sequence 0 0 0 0
  /\ acc (init_setup (snd failed_init)) = None
  /\ (false = false ->
      gpio (init_data (snd failed_init)) = false
      /\ init_trace (snd failed_init) = [DeviceGetBinding BoardLabels.adc_label]).
Proof.
  apply (init_failure_sets_nothing_up 19 5632 Z (fun channel => 1 + channel)
           kernel_without_adc example_cfg example_wiring zero_data zero_setup);
    [discriminate | left; reflexivity].
Defined.

Lemma init_then_fetch_witness :
  as_calibrate (init_data example_state) = true
  /\ In (GpioPinConfigure 4 5632) (init_trace example_state)
  /\ as_calibrate (Build_bvd_data true false 3796 3900 77) = false
  /\ trace (Build_world (Build_bvd_data true false 3796 3900 77)
              [GpioPinSet 4 1; AdcRead; GpioPinSet 4 0])
     = [] ++ [GpioPinSet 4 1; AdcRead; GpioPinSet 4 0].
Proof.
  apply (init_then_fetch 19 5632 Z (fun channel => 1 + channel) example_kernel
           example_cfg example_wiring zero_data zero_setup
           example_state
           BoardLabels.gate_label 134 example_raw_to_millivolts hw_release_fails
           SENSOR_CHAN_ALL [] (-22)
           (Build_world (Build_bvd_data true false 3796 3900 77)
              [GpioPinSet 4 1; AdcRead; GpioPinSet 4 0]));
    try reflexivity; discriminate.
Defined.

(** * The sample stored when nothing wraps *)

(** X22: the cycle's purpose: when the read succeeds, the pin voltage is a
    non-negative [int32_t], the resistors are [uint32_t] with a non-zero
    output resistor, and the scaled voltage [val * full_ohm / output_ohm]
    is below 32768 mV, the cycle stores exactly that quotient and the
    estimator's percent for it: no conversion changes the value. *)
Theorem in_range_sample_stored
    (ENOTSUP : Z) (adc_raw_to_millivolts : Z -> Z) (hw : hardware)
    (drv_cfg : bvd_config) (chan : sensor_channel) (d : bvd_data) (tr : list event) :
  chan_supported chan = true ->
  (gpio d = true -> gpio_pin_set_rc hw (power_gpios_pin drv_cfg) 1 = 0) ->
  adc_read_rc hw = 0 ->
  let val := adc_raw_to_millivolts (CInt.to_uint16 (adc_read_sample hw (adc_raw d))) in
  let millivolts := val * full_ohm drv_cfg / output_ohm drv_cfg in
  0 <= val < 2 ^ 31 ->
  0 <= full_ohm drv_cfg < 2 ^ 32 ->
  0 < output_ohm drv_cfg ->
  millivolts < 32768 ->
  exists rc w',
    bvd_sample_fetch ENOTSUP adc_raw_to_millivolts hw drv_cfg chan (Build_world d tr)
    = Some (rc, w')
    /\ voltage (drv_data w') = millivolts
    /\ lithium_ion_mv_to_pct millivolts = Some (state_of_charge (drv_data w')).
Proof.
  intros C Hen Hok val millivolts Hval Hfull Hout Hsmall.
  assert (R' : reaches_read hw drv_cfg chan d = true)
    by (apply (proj2 (reaches_read_true hw drv_cfg chan d)); split; assumption).
  assert (H0 : 0 <= millivolts) by (apply Z.div_pos; [nia | exact Hout]).
  pose proof (scale_up_exact drv_cfg val Hval Hfull) as Hexact.
  fold millivolts in Hexact.
  pose proof (fetch_cases ENOTSUP adc_raw_to_millivolts hw drv_cfg chan d tr) as H.
  cbv zeta in H. fold val in H. rewrite Hexact in H.
  assert (Hu : CInt.to_uint16 millivolts = millivolts)
    by (unfold CInt.to_uint16; apply Z.mod_small; change (2 ^ 16) with 65536; lia).
  assert (Hs : CInt.to_int16 millivolts = millivolts).
  { unfold CInt.to_int16. change (2 ^ 15) with 32768. change (2 ^ 16) with 65536.
    rewrite Z.mod_small; lia. }
  rewrite Hu, Hs in H.
  destruct H as [(R & E) | [(R & Hrc & E) | [(R & Hrc & Hdiv & E) | (R & Hrc & Hdiv & E)]]];
    try congruence; try lia.
  rewrite E. eexists; eexists. split; [reflexivity |].
  cbn [drv_data voltage state_of_charge].
  split; [reflexivity | apply pct_at_defined].
Qed.

Lemma in_range_sample_stored_witness :
  exists rc w',
    bvd_sample_fetch 134 example_raw_to_millivolts hw_release_fails example_cfg
      SENSOR_CHAN_ALL (Build_world example_data []) = Some (rc, w')
    /\ voltage (drv_data w') = 2780 * 2806000 / 2000000
    /\ lithium_ion_mv_to_pct (2780 * 2806000 / 2000000)
       = Some (state_of_charge (drv_data w')).
Proof.
  apply (in_range_sample_stored 134 example_raw_to_millivolts hw_release_fails
           example_cfg SENSOR_CHAN_ALL example_data []);
    try reflexivity; split; try discriminate; reflexivity.
Defined.
